(** * Node-health reconciliation of the ctdb event script

    A shallow embedding of [middlewared/scripts/ctdb_events.py]
    (class [CtdbEvent]: [init_client], [check_ctdb_shared_volume],
    [load_service_file], [startup], [monitor]) and the properties of the
    reconciler checked against it.

    The script is sequential Python that mutates the fields of one object,
    talks to the middleware through [self.client.call], reads and writes a
    few files and raises exceptions.  It is embedded as a state-and-exception
    monad over the object's fields; everything outside the process (files,
    the ctdb daemon, the middleware client, the clock) is a [world] record
    of oracles; what the script does to the outside is recorded in a
    [history] of effects. *)

From Stdlib Require Import ZArith Ascii String.
From stdpp Require Import gmap strings list fin_maps.

Open Scope Z_scope.
Open Scope string_scope.

(** ** Exceptions *)

(** The exception classes the script distinguishes in its [except] clauses.
    [FileNotFoundError] is the subclass of [OSError] the script catches
    first; [CallError] stands for any other [Exception], such as a failure
    reported by the middleware client. *)
Inductive exn_class :=
| FileNotFoundError
| OSError (errno : Z)
| JSONDecodeError
| RuntimeError
| AttributeError
| KeyError
| TypeError
| CallError.

(** An exception value: its class and [str(e)]. *)
Record exn := Exn { exn_cls : exn_class; exn_str : string }.

Definition ENOTCONN : Z := 107.

Inductive result (A : Type) :=
| Ok (a : A)
| Raise (e : exn).
Arguments Ok {A} a.
Arguments Raise {A} e.

(** ** Data model *)

(** One value of the cluster-wide [.clustered_services] mapping. *)
Record srv := Srv {
  srv_name : string;
  service_enable : bool;
  monitor_enable : bool
}.

(** The row returned by [service.query ... {'get': True}]. *)
Record srvinfo := SrvInfo {
  srvinfo_id : Z;
  srvinfo_state : string;
  srvinfo_enable : bool
}.

(** [self.ctdb_info]. *)
Record vol_info := VolInfo {
  mountpoint : string;
  volume_name : string
}.

(** One value of [self.node_status] as [monitor] writes it.  [last_check]
    is the clock reading, stored as it is and never computed with. *)
Record observation := Obs {
  running : bool;
  last_check : Z;
  error : option string
}.

(** A value of the per-node status file: an observation, or a JSON value on
    which [v['running']] raises.  A dict that lacks the member raises
    [KeyError('running')]; a value that is no dict (a list, a string, a
    number, [true], [false], [null]) raises a [TypeError], and [msg] is its
    message, which depends on the type of the value. *)
Inductive node_entry :=
| Entry (o : observation)
| NoRunning
| NotADict (msg : string).

Inductive event_name := STARTUP | MONITOR.
Inductive status_name := SUCCESS | FAILURE.

(** The dict passed to [ctdb.event.process]; an absent key is [None]. *)
Record payload := Payload {
  p_event : event_name;
  p_status : status_name;
  p_reason : option string;
  p_service : option string
}.

(** [self.client.call(method, args...)] *)
Inductive request :=
| core_ping
| ctdb_shared_volume_config
| service_query (name : string)
| service_start (name : string)
| service_stop (name : string)
| service_restart (name : string)
| service_update (id : Z) (enable : bool)
| ctdb_event_process (p : payload).

(** What a call returns. *)
Inductive reply :=
| RNone
| RBool (b : bool)
| RSrvInfo (i : srvinfo)
| RVolInfo (i : vol_info).

Inductive log_level := DEBUG | WARNING | ERROR.

(** What the script does to the outside, newest first in [history].
    [Wrote f n d]: the per-node file [f.n] was opened for writing and [d] was
    written, flushed and synced to it.  [Truncated f n]: the file was opened
    for writing, which empties it, and the lock, the write, the flush or the
    sync then raised; what the file holds after that is not known. *)
Inductive effect :=
| Called (r : request)
| Logged (lvl : log_level) (msg : string)
| Wrote (service_file : string) (pnn : Z) (content : gmap string node_entry)
| Truncated (service_file : string) (pnn : Z).

(** ** The outside world *)

Record world := World {
  (** [os.path.exists(MIDDLEWARE_STARTED_SENTINEL_PATH)] *)
  sentinel_exists : bool;
  (** [Client()]: [None] when the constructor returns *)
  Client : option exn;
  (** [json.loads(Path(CTDB_VOL_INFO_FILE).read_text())] *)
  read_vol_info : result vol_info;
  (** [os.stat(path).st_ino] *)
  stat_ino : string -> result Z;
  (** [os.path.exists(path)] *)
  path_exists : string -> bool;
  (** [ctdb.Client().pnn] *)
  ctdb_pnn : result Z;
  (** open, lock and [json.load] the cluster-wide service file *)
  read_service_file : string -> result (list srv);
  (** open and [json.load] the per-node status file [<service file>.<pnn>] *)
  read_node_file : string -> Z -> result (gmap string node_entry);
  (** the keys of the object in that file, in the order of the file, which
      is the order of the dict [json.load] builds *)
  node_file_order : string -> Z -> list string;
  (** opening the per-node status file for writing: [None] when it opens *)
  open_node_file : string -> Z -> option exn;
  (** [fcntl.lockf(f.fileno(), fcntl.LOCK_EX)] on the file just opened:
      [None] when it returns *)
  lock_node_file : string -> Z -> option exn;
  (** [f.write(json.dumps(d)); f.flush(); os.fsync(f.fileno())]: [None] when
      the three return *)
  write_node_file : string -> Z -> gmap string node_entry -> option exn;
  (** [fcntl.lockf(f.fileno(), fcntl.LOCK_UN)] of the [finally] clause *)
  unlock_node_file : string -> Z -> option exn;
  (** the close of the file when the [with] block is left *)
  close_node_file : string -> Z -> option exn;
  (** [time.clock_gettime(time.CLOCK_REALTIME)] *)
  clock_gettime : list effect -> Z;
  (** the answer of the middleware to a call, given what happened before *)
  client_call : list effect -> request -> result reply;
  (** the imported table [CTDB_SERVICE_DEFAULTS] (its values), defined in
      [plugins/cluster_linux/ctdb_services.py] *)
  CTDB_SERVICE_DEFAULTS : list srv
}.

(** ** The object *)

Record CtdbEvent := Self {
  client : bool;                              (** [self.client is not None] *)
  middleware_started : bool;
  cl_services : option (list srv);            (** [None]: attribute not set *)
  pnn : Z;
  node_status : gmap string node_entry;
  init_node_status : gmap string node_entry;
  ctdb_info : option vol_info;
  ctdb_service_file : option string;
  history : list effect;
  (** the keys of [self.node_status] in the order of the dict, which a
      [gmap] does not keep *)
  node_order : list string
}.

(** [CtdbEvent.__init__] *)
Definition __init__ (w : world) : CtdbEvent :=
  {| client := false;
     middleware_started := sentinel_exists w;
     cl_services := None;
     pnn := -1;
     node_status := ∅;
     init_node_status := ∅;
     ctdb_info := None;
     ctdb_service_file := None;
     history := [];
     node_order := [] |}.

Definition with_client (b : bool) (s : CtdbEvent) : CtdbEvent :=
  Self b (middleware_started s) (cl_services s) (pnn s) (node_status s)
       (init_node_status s) (ctdb_info s) (ctdb_service_file s) (history s)
       (node_order s).
Definition with_cl_services (l : list srv) (s : CtdbEvent) : CtdbEvent :=
  Self (client s) (middleware_started s) (Some l) (pnn s) (node_status s)
       (init_node_status s) (ctdb_info s) (ctdb_service_file s) (history s)
       (node_order s).
Definition with_pnn (n : Z) (s : CtdbEvent) : CtdbEvent :=
  Self (client s) (middleware_started s) (cl_services s) n (node_status s)
       (init_node_status s) (ctdb_info s) (ctdb_service_file s) (history s)
       (node_order s).
Definition with_node_status (m : gmap string node_entry) (s : CtdbEvent) : CtdbEvent :=
  Self (client s) (middleware_started s) (cl_services s) (pnn s) m
       (init_node_status s) (ctdb_info s) (ctdb_service_file s) (history s)
       (node_order s).
Definition with_init_node_status (m : gmap string node_entry) (s : CtdbEvent) : CtdbEvent :=
  Self (client s) (middleware_started s) (cl_services s) (pnn s) (node_status s)
       m (ctdb_info s) (ctdb_service_file s) (history s)
       (node_order s).
Definition with_ctdb_info (i : vol_info) (s : CtdbEvent) : CtdbEvent :=
  Self (client s) (middleware_started s) (cl_services s) (pnn s) (node_status s)
       (init_node_status s) (Some i) (ctdb_service_file s) (history s)
       (node_order s).
Definition with_ctdb_service_file (f : string) (s : CtdbEvent) : CtdbEvent :=
  Self (client s) (middleware_started s) (cl_services s) (pnn s) (node_status s)
       (init_node_status s) (ctdb_info s) (Some f) (history s) (node_order s).
Definition with_history (h : list effect) (s : CtdbEvent) : CtdbEvent :=
  Self (client s) (middleware_started s) (cl_services s) (pnn s) (node_status s)
       (init_node_status s) (ctdb_info s) (ctdb_service_file s) h (node_order s).
Definition with_node_order (l : list string) (s : CtdbEvent) : CtdbEvent :=
  Self (client s) (middleware_started s) (cl_services s) (pnn s) (node_status s)
       (init_node_status s) (ctdb_info s) (ctdb_service_file s) (history s) l.

(** ** The monad: object state and exceptions *)

Definition M (A : Type) : Type := CtdbEvent -> result A * CtdbEvent.

Definition ret {A} (a : A) : M A := fun s => (Ok a, s).

Definition bind {A B} (m : M A) (k : A -> M B) : M B :=
  fun s => match m s with
           | (Ok a, s') => k a s'
           | (Raise e, s') => (Raise e, s')
           end.

Definition raise {A} (e : exn) : M A := fun s => (Raise e, s).

(** [try: m  except Exception as e: h e]; a handler re-raises what its
    [except] clauses do not match. *)
Definition try_except {A} (m : M A) (h : exn -> M A) : M A :=
  fun s => match m s with
           | (Ok a, s') => (Ok a, s')
           | (Raise e, s') => h e s'
           end.

Notation "'do' x <- m ; k" := (bind m (fun x => k))
  (at level 10, x name, m at level 100, k at level 200,
   format "'[v' 'do'  x  <-  m ; '/' k ']'").
Notation "'run' m ; k" := (bind m (fun _ => k))
  (at level 10, m at level 100, k at level 200,
   format "'[v' 'run'  m ; '/' k ']'").

Definition get : M CtdbEvent := fun s => (Ok s, s).
Definition modify (f : CtdbEvent -> CtdbEvent) : M unit := fun s => (Ok tt, f s).

Definition lift {A} (r : result A) : M A :=
  match r with Ok a => ret a | Raise e => raise e end.

Definition emit (e : effect) : M unit :=
  modify (fun s => with_history (e :: history s) s).

Definition log (lvl : log_level) (msg : string) : M unit := emit (Logged lvl msg).

(** [self.client.call(...)]: the request is recorded whether or not the
    call returns. *)
Definition call (w : world) (r : request) : M reply :=
  do s <- get;
  if client s then
    run emit (Called r); lift (client_call w (history s) r)
  else raise (Exn AttributeError "'NoneType' object has no attribute 'call'").

(** ** Paths *)

Definition starts_with_slash (p : string) : bool :=
  match p with String c _ => bool_decide (c = "/"%char) | EmptyString => false end.

Fixpoint ends_with_slash (p : string) : bool :=
  match p with
  | EmptyString => false
  | String c EmptyString => bool_decide (c = "/"%char)
  | String _ r => ends_with_slash r
  end.

(** [os.path.join(a, b)] (posix) *)
Definition path_join (a b : string) : string :=
  if starts_with_slash b then b
  else if bool_decide (a = "") || ends_with_slash a then a ++ b
  else a ++ "/" ++ b.

(** ** The methods of [CtdbEvent] *)

(** [init_client] (lines 42-51) *)
Definition init_client (w : world) : M bool :=
  do s <- get;
  if negb (middleware_started s) then ret false
  else match Client w with
       | None => run modify (with_client true); ret true
       | Some _ =>
           run log ERROR "Failed to initialize middleware client";
           ret false
       end.

(** [init] (lines 114-130) *)
Definition init (w : world) : M unit :=
  do ok <- init_client w;
  if negb ok then ret tt
  else run call w core_ping; ret tt.

(** The reply of [ctdb.shared.volume.config] is subscripted with
    ['mountpoint'] and ['volume_name']; a reply that is not such a dict
    raises there. *)
Definition as_vol_info (r : reply) : M vol_info :=
  match r with
  | RVolInfo i => ret i
  | _ => raise (Exn TypeError "ctdb.shared.volume.config: not a volume description")
  end.

(** The reply of [service.query] is subscripted first at line 230 or 256,
    before anything else is done to the outside; a reply that is not a row
    raises there. *)
Definition as_srvinfo (r : reply) : M srvinfo :=
  match r with
  | RSrvInfo i => ret i
  | _ => raise (Exn TypeError "service.query: not a service row")
  end.

(** [check_ctdb_shared_volume] (lines 53-61) *)
Definition check_ctdb_shared_volume (w : world) : M unit :=
  do info <- try_except (lift (read_vol_info w))
               (fun e => match exn_cls e with
                         | FileNotFoundError =>
                             do r <- call w ctdb_shared_volume_config;
                             as_vol_info r
                         | _ => raise e
                         end);
  run modify (with_ctdb_info info);
  run modify (with_ctdb_service_file (path_join (mountpoint info) ".clustered_services"));
  do ino <- lift (stat_ino w (path_join "/cluster" (volume_name info)));
  if bool_decide (ino <> 1) then raise (Exn RuntimeError "ctdb shared volume not mounted")
  else ret tt.

(** [self.node_status = d], for a dict [d] whose keys come in [order]. *)
Definition assign_node_status (d : gmap string node_entry) (order : list string)
    : M unit :=
  modify (fun s => with_node_order order (with_node_status d s)).

Definition ENOTCONN_message : string :=
  "IO operation on gluster volume fuse mount containing ctdbd metadata " ++
  "failed with ENOTCONN. This may indicate that the volume is not mounted " ++
  "or the mountpoint is otherwise not healthy.".

Definition load_failed : string := "Failed to load clustered services file".

(** [load_service_file] (lines 63-112).  [open(None)] raises inside the
    outer [try]. *)
Definition load_service_file (w : world) : M unit :=
  do n <- lift (ctdb_pnn w);
  run modify (with_pnn n);
  try_except
    (do s <- get;
     do f <- match ctdb_service_file s with
             | Some f => ret f
             | None => raise (Exn TypeError "expected str, bytes or os.PathLike object, not NoneType")
             end;
     do l <- lift (read_service_file w f);
     run modify (with_cl_services l);
     try_except
       (do m <- lift (read_node_file w f n);
        assign_node_status m (node_file_order w f n))
       (fun e => match exn_cls e with
                 | FileNotFoundError | JSONDecodeError => assign_node_status ∅ []
                 | _ => raise e
                 end))
    (fun e => match exn_cls e with
              | FileNotFoundError =>
                  modify (with_cl_services (CTDB_SERVICE_DEFAULTS w))
              | OSError errno =>
                  if bool_decide (errno = ENOTCONN) then
                    run modify (with_cl_services (CTDB_SERVICE_DEFAULTS w));
                    raise (Exn RuntimeError ENOTCONN_message)
                  else
                    run log WARNING load_failed;
                    modify (with_cl_services (CTDB_SERVICE_DEFAULTS w))
              | _ =>
                  run log WARNING load_failed;
                  modify (with_cl_services (CTDB_SERVICE_DEFAULTS w))
              end).

(** [self.cl_services]: the attribute exists only once [load_service_file]
    has assigned it ([__init__] assigns [self.clservices]). *)
Definition get_cl_services : M (list srv) :=
  do s <- get;
  match cl_services s with
  | Some l => ret l
  | None => raise (Exn AttributeError "'CtdbEvent' object has no attribute 'cl_services'")
  end.

(** [self.ctdb_service_file] as a path or inside an f-string; it is set
    whenever the check of the volume has passed. *)
Definition get_ctdb_service_file : M string :=
  do s <- get;
  ret (default "None" (ctdb_service_file s)).

(** [for x in l: body x] *)
Fixpoint for_each {A} (body : A -> M unit) (l : list A) : M unit :=
  match l with
  | [] => ret tt
  | x :: l' => run body x; for_each body l'
  end.

(** The body of the loop of [startup] (lines 172-174). *)
Definition startup_restart (w : world) (x : srv) : M unit :=
  if monitor_enable x && service_enable x then
    run call w (service_restart (srv_name x)); ret tt
  else ret tt.

(** [startup] (lines 144-179); a bare [raise] re-raises the exception
    caught. *)
Definition startup (w : world) : M unit :=
  do ok <- init_client w;
  if negb ok then ret tt
  else
    run try_except (check_ctdb_shared_volume w)
          (fun e =>
             run call w (ctdb_event_process
                           (Payload STARTUP FAILURE (Some (exn_str e)) None));
             raise e);
    do f <- get_ctdb_service_file;
    if negb (path_exists w f) then ret tt
    else
      run load_service_file w;
      do l <- get_cl_services;
      run for_each (startup_restart w) l;
      run call w (ctdb_event_process (Payload STARTUP SUCCESS None None));
      ret tt.

(** The payload [monitor] builds when the shared volume is the offender. *)
Definition volume_failure (reason : string) : payload :=
  Payload MONITOR FAILURE (Some reason) (Some "ctdb_shared_volume").

(** The payload [monitor] builds when a service fails to start. *)
Definition start_failure (name msg : string) : payload :=
  Payload MONITOR FAILURE (Some (name ++ ": service failed to start: " ++ msg))
          (Some name).

(** The two warnings of the loop, with [srv['name']] filled in. *)
Definition not_running_message (name : string) : string :=
  name ++ ": managed service is not running. Attempting to start.".

Definition failed_start_message (name : string) : string :=
  name ++ ": failed to start managed service.".

(** The order of a dict after [d[k] = v]: a key that is there keeps its
    place, a new one comes last. *)
Definition dict_insert_order (k : string) (order : list string) : list string :=
  if bool_decide (k ∈ order) then order else (order ++ [k])%list.

Arguments dict_insert_order : simpl never.

(** [self.node_status[name] = {...}] (lines 262-266) *)
Definition set_node_status (name : string) (o : observation) : M unit :=
  modify (fun s => with_node_order (dict_insert_order name (node_order s))
                     (with_node_status (<[name := Entry o]> (node_status s)) s)).

(** One turn of the loop over [self.cl_services.values()] in [monitor]
    (lines 220-266); [pl] is the local variable [payload]. *)
Definition monitor_service (w : world) (x : srv) (pl : payload) : M payload :=
  if negb (monitor_enable x) then ret pl
  else
    do r <- call w (service_query (srv_name x));
    do srvinfo <- as_srvinfo r;
    do s <- get;
    let ts := clock_gettime w (history s) in
    do res <-
      (if service_enable x then
         do res <-
           (if negb (String.eqb (srvinfo_state srvinfo) "RUNNING") then
              run log WARNING (not_running_message (srv_name x));
              try_except
                (run call w (service_start (srv_name x)); ret (true, None, pl))
                (fun e =>
                   run log WARNING (failed_start_message (srv_name x));
                   ret (false, Some (exn_str e),
                        start_failure (srv_name x) (exn_str e)))
            else ret (true, None, pl));
         run (if negb (srvinfo_enable srvinfo) then
                run call w (service_update (srvinfo_id srvinfo) true); ret tt
              else ret tt);
         ret res
       else
         run (if srvinfo_enable srvinfo then
                run call w (service_update (srvinfo_id srvinfo) false); ret tt
              else ret tt);
         run (if String.eqb (srvinfo_state srvinfo) "RUNNING" then
                run call w (service_stop (srv_name x)); ret tt
              else ret tt);
         ret (false, None, pl));
    let '(is_running, err, pl') := res in
    run set_node_status (srv_name x) (Obs is_running ts err);
    ret pl'.

(** The loop itself. *)
Fixpoint reconcile (w : world) (l : list srv) (pl : payload) : M payload :=
  match l with
  | [] => ret pl
  | x :: l' => do pl' <- monitor_service w x pl; reconcile w l' pl'
  end.

(** [payload['status'] == 'FAILURE'] *)
Definition is_failure (pl : payload) : bool :=
  match p_status pl with FAILURE => true | SUCCESS => false end.

(** [payload['status'] == 'FAILURE' and payload['service'] == 'ctdb_shared_volume'] *)
Definition is_volume_failure (pl : payload) : bool :=
  is_failure pl && bool_decide (p_service pl = Some "ctdb_shared_volume").

(** [{k: v['running'] for k, v in d.items()}]: [None] when a subscript
    raises. *)
Definition entry_running (v : node_entry) : option bool :=
  match v with
  | Entry o => Some (running o)
  | NoRunning | NotADict _ => None
  end.

(** What [v['running']] raises, if it does. *)
Definition unusable_error (v : node_entry) : option exn :=
  match v with
  | Entry _ => None
  | NoRunning => Some (Exn KeyError "'running'")
  | NotADict msg => Some (Exn TypeError msg)
  end.

(** What the comprehension over [d.items()] raises: the error of the first
    entry, in the order [keys], whose subscript raises. *)
Fixpoint first_unusable (d : gmap string node_entry) (keys : list string)
    : option exn :=
  match keys with
  | [] => None
  | k :: keys' =>
      match d !! k ≫= unusable_error with
      | Some e => Some e
      | None => first_unusable d keys'
      end
  end.

(** The keys of [self.node_status] in the order of the dict.  On an object
    that went through [load_service_file] and the loop, [node_order] lists
    them all; keys it should lack are put last. *)
Definition node_status_keys (s : CtdbEvent) : list string :=
  (node_order s ++ (map_to_list (node_status s)).*1)%list.
Arguments node_status_keys : simpl never.

Definition running_of (d : gmap string node_entry) : option (gmap string bool) :=
  if bool_decide (map_Forall (fun _ v => is_Some (entry_running v)) d)
  then Some (omap entry_running d) else None.

(** The payload a tick starts with. *)
Definition success_payload : payload := Payload MONITOR SUCCESS None None.

(** Lines 209-217 of [monitor]: the load of the two files, a [RuntimeError]
    of which becomes a volume failure. *)
Definition monitor_load (w : world) (pl : payload) : M payload :=
  try_except (run load_service_file w; ret pl)
    (fun e => match exn_cls e with
              | RuntimeError => ret (volume_failure (exn_str e))
              | _ => raise e
              end).

(** Lines 193-266 of [monitor], after the client is there: check the
    volume, load the files, run the loop. *)
Definition monitor_reconcile (w : world) : M payload :=
  do pl <- try_except
             (run check_ctdb_shared_volume w; ret success_payload)
             (fun e => ret (volume_failure (exn_str e)));
  if negb (is_failure pl) then
    do pl <- monitor_load w pl;
    run modify (fun s => with_init_node_status (node_status s) s);
    do l <- get_cl_services;
    reconcile w l pl
  else ret pl.

(** A step of the outside that returns or raises. *)
Definition fallible (o : option exn) : M unit :=
  match o with None => ret tt | Some e => raise e end.

(** [try: m  finally: c], and a [with] block [m] that is left through [c]:
    [c] runs whether or not [m] raised, and an error of [c] replaces the
    outcome of [m]. *)
Definition finally {A} (m : M A) (c : M unit) : M A :=
  fun s => match m s with
           | (r, s1) => match c s1 with
                        | (Ok _, s2) => (r, s2)
                        | (Raise e, s2) => (Raise e, s2)
                        end
           end.

(** Lines 286-293 of [monitor]: the write of the per-node file [f.n].  When
    [open] raises, the block is not entered.  Once the file is open it has
    been emptied: an error of the lock (outside the [try]), or of the write,
    the flush or the sync (inside it), leaves the file [Truncated].  The
    unlock runs in the [finally] clause, the close when the [with] block is
    left, whatever happened before; an error of either is the error of the
    block. *)
Definition write_node_status (w : world) (f : string) (n : Z)
    (d : gmap string node_entry) : M unit :=
  run fallible (open_node_file w f n);
  finally
    (match lock_node_file w f n with
     | Some e => run emit (Truncated f n); raise e
     | None =>
         finally
           (match write_node_file w f n d with
            | Some e => run emit (Truncated f n); raise e
            | None => emit (Wrote f n d)
            end)
           (fallible (unlock_node_file w f n))
     end)
    (fallible (close_node_file w f n)).

(** Lines 268-293 of [monitor]: the change event, then either the report
    of a volume failure or the write of the per-node file.  The comprehension
    of line 274 is outside any [try]: what it raises leaves [monitor]. *)
Definition monitor_report (w : world) (pl : payload) : M unit :=
  do s <- get;
  do initial <- match running_of (init_node_status s) with
                | Some m => ret m
                | None =>
                    run log WARNING "Unable to parse initial node status";
                    ret ∅
                end;
  do final <- match running_of (node_status s) with
              | Some m => ret m
              | None =>
                  raise (default (Exn KeyError "'running'")
                           (first_unusable (node_status s) (node_status_keys s)))
              end;
  run (if bool_decide (initial <> ∅) && bool_decide (initial <> final) then
         run call w (ctdb_event_process pl); ret tt
       else ret tt);
  if is_volume_failure pl then
    run call w (ctdb_event_process pl);
    raise (Exn RuntimeError (default "None" (p_reason pl)))
  else
    do f <- get_ctdb_service_file;
    do s <- get;
    write_node_status w f (pnn s) (node_status s).

(** [monitor] (lines 188-293) *)
Definition monitor (w : world) : M unit :=
  do ok <- init_client w;
  if negb ok then log DEBUG "middlewared is not ready. Skipping monitoring"
  else
    do pl <- monitor_reconcile w;
    monitor_report w pl.

(** ** Reading a history *)

(** The payloads handed to [ctdb.event.process], newest first. *)
Fixpoint events (h : list effect) : list payload :=
  match h with
  | [] => []
  | Called (ctdb_event_process pl) :: h' => pl :: events h'
  | _ :: h' => events h'
  end.

(** The per-node file was opened for writing. *)
Definition is_write (e : effect) : bool :=
  match e with Wrote _ _ _ | Truncated _ _ => true | _ => false end.

(** A call that queries or changes a service. *)
Definition touches_service (e : effect) : bool :=
  match e with
  | Called (service_query _) | Called (service_start _) | Called (service_stop _)
  | Called (service_restart _) | Called (service_update _ _) => true
  | _ => false
  end.

(** What the loop of [monitor] can do to the outside. *)
Definition loop_effect (e : effect) : bool :=
  match e with
  | Called (service_query _) | Called (service_start _) | Called (service_stop _)
  | Called (service_update _ _) | Logged _ _ => true
  | _ => false
  end.

(** Anything but an event report or a write of the per-node file. *)
Definition preparing (e : effect) : bool :=
  match e with
  | Called (ctdb_event_process _) | Wrote _ _ _ | Truncated _ _ => false
  | _ => true
  end.

(** [grows P h h']: [h'] is [h] with effects satisfying [P] put in front. *)
Inductive grows (P : effect -> bool) (h : list effect) : list effect -> Prop :=
| grows_refl : grows P h h
| grows_cons e h' : P e = true -> grows P h h' -> grows P h (e :: h').

(** The fields of the object other than [node_status] and [history] agree. *)
Definition same_object (s s' : CtdbEvent) : Prop :=
  client s' = client s /\
  middleware_started s' = middleware_started s /\
  cl_services s' = cl_services s /\
  pnn s' = pnn s /\
  init_node_status s' = init_node_status s /\
  ctdb_info s' = ctdb_info s /\
  ctdb_service_file s' = ctdb_service_file s.

(** The invariant of an observation: an error is recorded only for a
    service that is not running. *)
Definition obs_ok (o : observation) : Prop :=
  (error o <> None -> running o = false) /\ (running o = true -> error o = None).

(** ** Model worlds, used to instantiate the theorems *)

(** A node whose middleware answers every call from a table: [ino] is the
    inode of the volume's mount point, [services] what reading the
    cluster-wide service file gives, [prior] what reading the per-node
    status file gives. *)
Definition example_world_at (ino : Z) (services : result (list srv))
    (defaults : list srv) (prior : result (gmap string node_entry))
    (now : Z) (answer : request -> result reply) : world :=
  {| sentinel_exists := true;
     Client := None;
     read_vol_info := Ok (VolInfo "/cluster/ctdb_shared_vol" "ctdb_shared_vol");
     stat_ino := fun _ => Ok ino;
     path_exists := fun _ => true;
     ctdb_pnn := Ok 0;
     read_service_file := fun _ => services;
     read_node_file := fun _ _ => prior;
     node_file_order := fun _ _ =>
       match prior with Ok d => (map_to_list d).*1 | Raise _ => [] end;
     open_node_file := fun _ _ => None;
     lock_node_file := fun _ _ => None;
     write_node_file := fun _ _ _ => None;
     unlock_node_file := fun _ _ => None;
     close_node_file := fun _ _ => None;
     clock_gettime := fun _ => now;
     client_call := fun _ r => answer r;
     CTDB_SERVICE_DEFAULTS := defaults |}.

(** The same with the volume mounted and the service file in place. *)
Definition example_world (specs : list srv)
    (prior : result (gmap string node_entry))
    (now : Z) (answer : request -> result reply) : world :=
  example_world_at 1 (Ok specs) [] prior now answer.

Definition no_file : exn := Exn FileNotFoundError "No such file or directory".
Definition not_connected : exn :=
  Exn (OSError ENOTCONN) "Transport endpoint is not connected".

Definition svcA : srv := Srv "svcA" true true.
Definition svcB : srv := Srv "svcB" true true.

(** Every service is running and enabled. *)
Definition all_running (r : request) : result reply :=
  match r with
  | service_query _ => Ok (RSrvInfo (SrvInfo 1 "RUNNING" true))
  | _ => Ok RNone
  end.

(** Every service is stopped, enabled, and starts when asked to. *)
Definition all_stopped (r : request) : result reply :=
  match r with
  | service_query _ => Ok (RSrvInfo (SrvInfo 1 "STOPPED" true))
  | _ => Ok RNone
  end.

(** The client can be set up: the sentinel is there and [Client()] returns. *)
Definition ready (w : world) : Prop :=
  sentinel_exists w = true /\ Client w = None.

(** The fresh object once [init_client] has set [self.client]. *)
Definition connected (w : world) : CtdbEvent := with_client true (__init__ w).

Definition volume_effect (e : effect) : bool :=
  match e with Called ctdb_shared_volume_config => true | _ => false end.

Definition is_log (e : effect) : bool :=
  match e with Logged _ _ => true | _ => false end.

(** An entry with its clock reading set aside. *)
Definition forget_last_check (v : node_entry) : node_entry :=
  match v with
  | Entry o => Entry (Obs (running o) 0 (error o))
  | NoRunning => NoRunning
  | NotADict msg => NotADict msg
  end.

(** The middleware reports every monitored service of [l] as running with
    its enabled flag equal to [service_enable], at any point of a tick, and
    answers a request to stop one. *)
Definition steady (w : world) (l : list srv) : Prop :=
  forall h x, x ∈ l -> monitor_enable x = true ->
    (exists info,
        client_call w h (service_query (srv_name x)) = Ok (RSrvInfo info) /\
        srvinfo_state info = "RUNNING" /\
        srvinfo_enable info = service_enable x) /\
    (exists r, client_call w h (service_stop (srv_name x)) = Ok r).

(** The observations, clock readings set aside, that a tick leaves for
    services in that state. *)
Definition settled (l : list srv) (d : gmap string node_entry) : gmap string node_entry :=
  foldl (fun d x => if monitor_enable x
                    then <[srv_name x := Entry (Obs (service_enable x) 0 None)]> d
                    else d) d l.

Definition not_write (e : effect) : bool := negb (is_write e).

(** The volume is not mounted. *)
Definition unmounted_world : world :=
  example_world_at 2 (Ok [svcA]) [] (Raise no_file) 100 all_stopped.

(** Reading the service file fails with ENOTCONN; the default table
    monitors one service. *)
Definition disconnected_world : world :=
  example_world_at 1 (Raise not_connected) [svcA] (Raise no_file) 100 all_stopped.

(** A running service is no longer wanted: the tick stops it. *)
Definition stopping_world : world :=
  example_world [Srv "svcA" false true]
    (Ok {[ "svcA" := Entry (Obs true 50 None) ]}) 100 all_running.

(** A second service is monitored for the first time; nothing else changed. *)
Definition newcomer_world : world :=
  example_world [svcA; svcB]
    (Ok {[ "svcA" := Entry (Obs true 50 None) ]}) 100 all_running.

(** A stopped service whose start fails. *)
Definition port_in_use (r : request) : result reply :=
  match r with
  | service_query _ => Ok (RSrvInfo (SrvInfo 1 "STOPPED" true))
  | service_start _ => Raise (Exn CallError "port in use")
  | _ => Ok RNone
  end.

(** A running, enabled service that is no longer wanted and cannot be
    stopped. *)
Definition stop_times_out (r : request) : result reply :=
  match r with
  | service_query _ => Ok (RSrvInfo (SrvInfo 1 "RUNNING" true))
  | service_stop _ => Raise (Exn CallError "timed out")
  | _ => Ok RNone
  end.

(** The middleware stops answering once the client is set up. *)
Definition unreachable (r : request) : result reply :=
  Raise (Exn CallError "Failed connection handshake").

(** The middleware has not started. *)
Definition not_started_world : world :=
  {| sentinel_exists := false;
     Client := None;
     read_vol_info := Ok (VolInfo "/cluster/ctdb_shared_vol" "ctdb_shared_vol");
     stat_ino := fun _ => Ok 1;
     path_exists := fun _ => true;
     ctdb_pnn := Ok 0;
     read_service_file := fun _ => Ok [svcA];
     read_node_file := fun _ _ => Raise no_file;
     node_file_order := fun _ _ => [];
     open_node_file := fun _ _ => None;
     lock_node_file := fun _ _ => None;
     write_node_file := fun _ _ _ => None;
     unlock_node_file := fun _ _ => None;
     close_node_file := fun _ _ => None;
     clock_gettime := fun _ => 100;
     client_call := fun _ r => all_stopped r;
     CTDB_SERVICE_DEFAULTS := [] |}.

(** The restart calls [startup] makes for a table, in the order made. *)
Definition restarted (l : list srv) : list effect :=
  map (fun x => Called (service_restart (srv_name x)))
      (List.filter (fun x => monitor_enable x && service_enable x) l).

(** The volume is mounted, but no cluster service file has been written. *)
Definition no_service_file_world : world :=
  {| sentinel_exists := true;
     Client := None;
     read_vol_info := Ok (VolInfo "/cluster/ctdb_shared_vol" "ctdb_shared_vol");
     stat_ino := fun _ => Ok 1;
     path_exists := fun _ => false;
     ctdb_pnn := Ok 0;
     read_service_file := fun _ => Raise no_file;
     read_node_file := fun _ _ => Raise no_file;
     node_file_order := fun _ _ => [];
     open_node_file := fun _ _ => None;
     lock_node_file := fun _ _ => None;
     write_node_file := fun _ _ _ => None;
     unlock_node_file := fun _ _ => None;
     close_node_file := fun _ _ => None;
     clock_gettime := fun _ => 100;
     client_call := fun _ r => all_stopped r;
     CTDB_SERVICE_DEFAULTS := [svcA] |}.

(** A table of three services, of which one is both enabled and monitored. *)
Definition startup_world : world :=
  example_world [svcA; Srv "svcB" false true; Srv "svcC" true false]
    (Raise no_file) 100 all_running.

(** [k] is the name of a monitored service of [l]. *)
Definition monitored_name (l : list srv) (k : string) : Prop :=
  exists x, x ∈ l /\ monitor_enable x = true /\ srv_name x = k.

(** What a first steady tick writes, when there was no per-node file. *)
Definition first_written : gmap string node_entry :=
  {[ "svcA" := Entry (Obs true 100 None) ]}.

(** Two ticks in succession on a node where nothing changes: the second
    loads what the first wrote, and its clock has moved on. *)
Definition first_tick_world : world :=
  example_world [svcA] (Raise no_file) 100 all_running.
Definition second_tick_world : world :=
  example_world [svcA] (Ok first_written) 200 all_running.

(** A tick on a steady node whose per-node file, written earlier, says the
    service was not running. *)
Definition recovered_world : world :=
  example_world [svcA] (Ok {[ "svcA" := Entry (Obs false 50 None) ]}) 100 all_running.

(** ** Further readings of a history and further model worlds *)

(** The names [service.query] was called with, newest first. *)
Fixpoint queries (h : list effect) : list string :=
  match h with
  | [] => []
  | Called (service_query n) :: h' => n :: queries h'
  | _ :: h' => queries h'
  end.

(** What a turn of the loop may do for a service that is wanted
    ([wanted = true]) or not wanted. *)
Definition moves_towards (wanted : bool) (e : effect) : bool :=
  match e with
  | Called (service_query _) | Logged _ _ => true
  | Called (service_start _) => wanted
  | Called (service_stop _) => negb wanted
  | Called (service_update _ b) => bool_decide (b = wanted)
  | _ => false
  end.

(** What a tick may do to the outside. *)
Definition tick_effect (e : effect) : bool :=
  match e with
  | Called core_ping | Called (service_restart _) => false
  | _ => true
  end.

(** What [startup] may do to the outside. *)
Definition startup_effect (e : effect) : bool :=
  match e with
  | Called ctdb_shared_volume_config | Called (service_restart _)
  | Called (ctdb_event_process _) | Logged _ _ => true
  | _ => false
  end.

(** The file describing the volume is missing; the middleware describes it. *)
Definition described_by_middleware : world :=
  {| sentinel_exists := true;
     Client := None;
     read_vol_info := Raise no_file;
     stat_ino := fun _ => Ok 1;
     path_exists := fun _ => true;
     ctdb_pnn := Ok 3;
     read_service_file := fun _ => Ok [svcA];
     read_node_file := fun _ _ => Raise (Exn JSONDecodeError "Expecting value");
     node_file_order := fun _ _ => [];
     open_node_file := fun _ _ => None;
     lock_node_file := fun _ _ => None;
     write_node_file := fun _ _ _ => None;
     unlock_node_file := fun _ _ => None;
     close_node_file := fun _ _ => None;
     clock_gettime := fun _ => 100;
     client_call := fun _ r =>
       match r with
       | ctdb_shared_volume_config => Ok (RVolInfo (VolInfo "/cluster/vol0" "vol0"))
       | _ => all_running r
       end;
     CTDB_SERVICE_DEFAULTS := [] |}.


(** A per-node file with an entry that is a number, for a service that is
    no longer in the table. *)
Definition not_subscriptable : string := "'int' object is not subscriptable".
Definition stale_malformed_world : world :=
  example_world [svcA] (Ok {[ "gone" := NotADict not_subscriptable ]}) 100 all_running.

(** The per-node file cannot be opened for writing. *)
Definition read_only_world : world :=
  {| sentinel_exists := true;
     Client := None;
     read_vol_info := Ok (VolInfo "/cluster/ctdb_shared_vol" "ctdb_shared_vol");
     stat_ino := fun _ => Ok 1;
     path_exists := fun _ => true;
     ctdb_pnn := Ok 0;
     read_service_file := fun _ => Ok [svcA];
     read_node_file := fun _ _ => Raise no_file;
     node_file_order := fun _ _ => [];
     open_node_file := fun _ _ => Some (Exn (OSError 30) "Read-only file system");
     lock_node_file := fun _ _ => None;
     write_node_file := fun _ _ _ => None;
     unlock_node_file := fun _ _ => None;
     close_node_file := fun _ _ => None;
     clock_gettime := fun _ => 100;
     client_call := fun _ r => all_running r;
     CTDB_SERVICE_DEFAULTS := [] |}.

(** The second of three services cannot be restarted. *)
Definition restart_fails (r : request) : result reply :=
  match r with
  | service_restart "svcB" => Raise (Exn CallError "timed out")
  | _ => Ok RNone
  end.
Definition restart_fails_world : world :=
  example_world [svcA; svcB; Srv "svcC" true true] (Raise no_file) 100 restart_fails.

(** The starts that raised, newest first, with the error of each: a start
    recorded in a history raised if the middleware, asked at the point where
    the call was made, raised. *)
Fixpoint failed_starts (w : world) (h : list effect) : list (string * exn) :=
  match h with
  | [] => []
  | Called (service_start n) :: h' =>
      match client_call w h' (service_start n) with
      | Raise e => (n, e) :: failed_starts w h'
      | Ok _ => failed_starts w h'
      end
  | _ :: h' => failed_starts w h'
  end.

(** The result of the loop that started with [pl], given the starts that
    raised in it, newest first. *)
Definition last_failure (pl : payload) (raised : list (string * exn)) : payload :=
  match raised with
  | [] => pl
  | (n, e) :: _ => start_failure n (exn_str e)
  end.

(** A stopped service whose enabled flag is off, that cannot be started, and
    whose flag cannot be switched on. *)
Definition start_and_update_fail (r : request) : result reply :=
  match r with
  | service_query _ => Ok (RSrvInfo (SrvInfo 7 "STOPPED" false))
  | service_start _ => Raise (Exn CallError "port in use")
  | service_update _ _ => Raise (Exn CallError "timed out")
  | _ => Ok RNone
  end.

(** A stopped service whose enabled flag is off, that starts when asked to,
    and whose flag cannot be switched on. *)
Definition update_fails (r : request) : result reply :=
  match r with
  | service_query _ => Ok (RSrvInfo (SrvInfo 7 "STOPPED" false))
  | service_update _ _ => Raise (Exn CallError "timed out")
  | _ => Ok RNone
  end.


(** ** Tactics *)

(** Splits on a test whose subject contains no further test. *)
Ltac inner_case :=
  match goal with
  | H : context [match ?x with _ => _ end] |- _ =>
      lazymatch x with
      | context [match _ with _ => _ end] => fail
      | _ => destruct x eqn:?
      end
  | |- context [match ?x with _ => _ end] =>
      lazymatch x with
      | context [match _ with _ => _ end] => fail
      | _ => destruct x eqn:?
      end
  end.

Ltac unfold_monad :=
  unfold monitor_load, set_node_status, assign_node_status, write_node_status,
    finally, fallible, with_node_order, get_cl_services, get_ctdb_service_file,
    as_srvinfo, as_vol_info, call,
    log, emit, lift, modify, get, try_except, raise, bind, ret,
    with_client, with_cl_services, with_pnn, with_node_status,
    with_init_node_status, with_ctdb_info, with_ctdb_service_file,
    with_history in *.

(** Unfolds the monad and follows the code through every test it makes. *)
Ltac exec :=
  unfold_monad;
  repeat (cbn in *; simplify_eq; inner_case);
  cbn in *; simplify_eq.

(** Rewrites with what is known of the answers of the middleware. *)
Ltac known_calls :=
  repeat match goal with
         | H : client_call _ _ _ = _ |- _ => rewrite H
         end.

Ltac grows_done :=
  repeat (first [apply grows_refl | apply grows_cons; [done|]]).

(** ** Basic facts *)

Lemma grows_trans P h1 h2 h3 :
  grows P h1 h2 -> grows P h2 h3 -> grows P h1 h3.
Proof.
  intros H12 H23. induction H23 as [|e h' He _ IH]; [exact H12|].
  by apply grows_cons.
Qed.

Lemma grows_weaken (P Q : effect -> bool) h h' :
  (forall e, P e = true -> Q e = true) -> grows P h h' -> grows Q h h'.
Proof.
  intros HPQ H. induction H as [|e h' He _ IH]; [apply grows_refl|].
  apply grows_cons; auto.
Qed.

Lemma loop_effect_preparing e : loop_effect e = true -> preparing e = true.
Proof. by destruct e as [[]| | |]. Qed.

Lemma grows_events h h' : grows preparing h h' -> events h' = events h.
Proof.
  induction 1 as [|e h' He _ IH]; [done|].
  by destruct e as [[]| | |].
Qed.

Lemma grows_no_write h h' :
  grows preparing h h' ->
  Forall (fun e => is_write e = false) h ->
  Forall (fun e => is_write e = false) h'.
Proof.
  induction 1 as [|e h' He _ IH]; [done|]. intros Hh.
  constructor; [by destruct e as [[]| | |]|auto].
Qed.

Lemma same_object_refl s : same_object s s.
Proof. by repeat split. Qed.

Lemma same_object_trans s1 s2 s3 :
  same_object s1 s2 -> same_object s2 s3 -> same_object s1 s3.
Proof. unfold same_object. intros ? ?. destruct_and!. repeat split; congruence. Qed.

Lemma eqb_RUNNING_false (st : string) : st <> "RUNNING" -> String.eqb st "RUNNING" = false.
Proof. by intros; apply String.eqb_neq. Qed.

(** ** One turn of the loop *)

Lemma monitor_service_spec w x pl s r s' :
  monitor_service w x pl s = (r, s') ->
  same_object s s' /\
  grows loop_effect (history s) (history s') /\
  ((node_status s' = node_status s /\
    ((r = Ok pl /\ monitor_enable x = false) \/ exists e, r = Raise e)) \/
   (exists o pl',
      monitor_enable x = true /\ r = Ok pl' /\
      node_status s' = <[srv_name x := Entry o]> (node_status s) /\
      obs_ok o /\
      (running o = true \/ service_enable x = false -> error o = None /\ pl' = pl) /\
      (pl' = pl \/
       exists msg, pl' = start_failure (srv_name x) msg /\ error o = Some msg))).
Proof.
  intros H. destruct s, x as [n [] []]. all: unfold monitor_service in H; exec.
  all: (split; [by repeat split|]).
  all: (split; [grows_done|]).
  all: first [ left; split; [done|]; first [by left | by right; eauto]
             | right; eexists (Obs _ _ _), _; repeat split; simpl; eauto; try done;
               intuition (try discriminate; eauto) ].
Qed.

(** ** The loop *)

Lemma reconcile_spec w l : forall pl s r s',
  reconcile w l pl s = (r, s') ->
  same_object s s' /\
  grows loop_effect (history s) (history s') /\
  (forall k,
      node_status s' !! k = node_status s !! k \/
      exists x o, x ∈ l /\ monitor_enable x = true /\ srv_name x = k /\
                  node_status s' !! k = Some (Entry o) /\ obs_ok o) /\
  (forall pl', r = Ok pl' ->
      pl' = pl \/
      exists x msg, x ∈ l /\ monitor_enable x = true /\
                    pl' = start_failure (srv_name x) msg).
Proof.
  induction l as [|x l IH]; intros pl s r s' H.
  - cbn in H. unfold ret in H. simplify_eq.
    split; [apply same_object_refl|]. split; [apply grows_refl|].
    split; [by left|]. intros pl' ?; simplify_eq. by left.
  - cbn in H. unfold bind in H.
    destruct (monitor_service w x pl s) as [r1 s1] eqn:E1.
    apply monitor_service_spec in E1 as (Hobj1 & Hgr1 & Hns1).
    destruct r1 as [pl1|e1].
    + apply IH in H as (Hobj & Hgr & Hns & Hpl).
      split; [by eapply same_object_trans|].
      split; [by eapply grows_trans|].
      split.
      * intros k. destruct (Hns k) as [Hk|(y & o & ? & ? & ? & ? & ?)].
        -- rewrite Hk.
           destruct Hns1 as [[-> _]|(o & pl2 & ? & ? & -> & ? & _)]; [by left|].
           destruct (decide (srv_name x = k)) as [<-|Hne].
           ++ right. exists x, o. rewrite lookup_insert_eq.
              split; [apply list_elem_of_here|done].
           ++ left. by rewrite lookup_insert_ne.
        -- right. exists y, o. split; [by apply list_elem_of_further|done].
      * intros pl' ->. destruct (Hpl pl' eq_refl) as [->|(y & msg & ? & ? & ->)].
        -- destruct Hns1 as [[_ [[? _]|[? ?]]]|(o & pl2 & ? & ? & _ & _ & _ & Hp)];
             simplify_eq; [by left|].
           destruct Hp as [->|(msg & -> & _)]; [by left|].
           right. exists x, msg. repeat split; auto. apply list_elem_of_here.
        -- right. exists y, msg. repeat split; auto. by apply list_elem_of_further.
    + simplify_eq. split; [done|]. split; [done|]. split; [|done].
      intros k. left.
      by destruct Hns1 as [[-> _]|(o & pl2 & ? & ? & _)].
Qed.

Lemma reconcile_app w l1 : forall l2 pl s,
  reconcile w (l1 ++ l2) pl s =
  match reconcile w l1 pl s with
  | (Ok pl1, s1) => reconcile w l2 pl1 s1
  | (Raise e, s1) => (Raise e, s1)
  end.
Proof.
  induction l1 as [|x l1 IH]; intros l2 pl s; [done|].
  cbn [reconcile app]. unfold bind.
  destruct (monitor_service w x pl s) as [[pl1|e1] s1]; [apply IH|done].
Qed.

Lemma monitor_service_failed_starts w x pl s pl' s' :
  monitor_service w x pl s = (Ok pl', s') ->
  exists raised,
    failed_starts w (history s') = (raised ++ failed_starts w (history s))%list /\
    pl' = last_failure pl raised.
Proof.
  intros H. destruct s, x as [n [] []]. all: unfold monitor_service in H; exec.
  all: cbn; known_calls.
  all: first [by exists [] | eexists [_]; split; reflexivity].
Qed.

Lemma reconcile_failed_starts w l : forall pl s pl' s',
  reconcile w l pl s = (Ok pl', s') ->
  exists raised,
    failed_starts w (history s') = (raised ++ failed_starts w (history s))%list /\
    pl' = last_failure pl raised.
Proof.
  induction l as [|x l IH]; intros pl s pl' s' H.
  - cbn in H. unfold ret in H. simplify_eq. by exists [].
  - cbn [reconcile] in H. unfold bind in H.
    destruct (monitor_service w x pl s) as [[pl1|e1] s1] eqn:E1; [|done].
    apply monitor_service_failed_starts in E1 as (r1 & Hh1 & ->).
    apply IH in H as (r2 & Hh2 & ->).
    exists (r2 ++ r1)%list. split; [by rewrite Hh2, Hh1, app_assoc|].
    by destruct r2 as [|[] ?].
Qed.

(** ** The phases before the loop *)

Lemma init_client_ready w :
  ready w -> init_client w (__init__ w) = (Ok true, connected w).
Proof.
  intros [Hs Hc]. unfold init_client, connected. unfold_monad. cbn.
  rewrite Hs, Hc. cbn. by rewrite Hs.
Qed.

Lemma check_spec w s r s' :
  check_ctdb_shared_volume w s = (r, s') ->
  client s' = client s /\ cl_services s' = cl_services s /\ pnn s' = pnn s /\
  node_status s' = node_status s /\ init_node_status s' = init_node_status s /\
  grows volume_effect (history s) (history s') /\
  (r = Ok tt -> is_Some (ctdb_service_file s')).
Proof.
  intros H. destruct s. unfold check_ctdb_shared_volume in H. exec.
  all: repeat split; try done; try grows_done.
  all: by intros; simplify_eq; eauto.
Qed.

Lemma load_spec w s r s' :
  load_service_file w s = (r, s') ->
  client s' = client s /\ init_node_status s' = init_node_status s /\
  ctdb_service_file s' = ctdb_service_file s /\
  grows is_log (history s) (history s') /\
  (r = Ok tt -> is_Some (cl_services s')) /\
  (forall e, r = Raise e -> node_status s' = node_status s).
Proof.
  intros H. destruct s. unfold load_service_file in H. exec.
  all: repeat split; try done; try grows_done.
  all: by intros; simplify_eq; eauto.
Qed.

(** ** The map of running flags *)

Lemma running_of_Some d m :
  running_of d = Some m <->
  (forall k v, d !! k = Some v -> is_Some (entry_running v)) /\ m = omap entry_running d.
Proof.
  unfold running_of. case_bool_decide as Hd.
  - split; [intros ?; simplify_eq; split; [apply Hd|done]|by intros [_ ->]].
  - split; [done|]. intros [Hall _]. destruct Hd. exact Hall.
Qed.


Lemma running_of_lookup d m k :
  running_of d = Some m -> m !! k = d !! k ≫= entry_running.
Proof. intros [_ ->]%running_of_Some. apply lookup_omap. Qed.


Lemma running_of_forget d1 d2 :
  forget_last_check <$> d1 = forget_last_check <$> d2 -> running_of d1 = running_of d2.
Proof.
  intros Heq.
  assert (Hk : forall k, d1 !! k ≫= entry_running = d2 !! k ≫= entry_running).
  { intros k. apply (f_equal (fun d => d !! k)) in Heq. rewrite !lookup_fmap in Heq.
    destruct (d1 !! k) as [[]|], (d2 !! k) as [[]|]; simplify_eq/=; try done.
    by f_equal. }
  assert (Hm : omap entry_running d1 = omap entry_running d2).
  { apply map_eq. intros k. by rewrite !lookup_omap. }
  assert (Hiff : forall da db : gmap string node_entry,
            (forall k, da !! k ≫= entry_running = db !! k ≫= entry_running) ->
            (forall k v, da !! k = Some v -> is_Some (entry_running v)) ->
            (forall k, is_Some (da !! k) <-> is_Some (db !! k)) ->
            forall k v, db !! k = Some v -> is_Some (entry_running v)).
  { intros da db Hab Ha Hdom k v Hv.
    destruct (proj2 (Hdom k)) as [va Hva]; [by eexists|].
    specialize (Hab k). rewrite Hva, Hv in Hab. cbn in Hab.
    rewrite <- Hab. by eapply Ha. }
  assert (Hdom : forall k, is_Some (d1 !! k) <-> is_Some (d2 !! k)).
  { intros k. apply (f_equal (fun d => d !! k)) in Heq. rewrite !lookup_fmap in Heq.
    destruct (d1 !! k), (d2 !! k); simplify_eq/=; split; intros [? ?]; by eauto. }
  destruct (running_of d1) as [m1|] eqn:E1.
  - apply running_of_Some in E1 as [H1 ->]. symmetry. apply running_of_Some.
    split; [|done]. by eapply Hiff.
  - destruct (running_of d2) as [m2|] eqn:E2; [|done].
    apply running_of_Some in E2 as [H2 ->].
    assert (is_Some (running_of d1)) as [? ?]; [|congruence].
    eexists. apply running_of_Some. split; [|done].
    eapply (Hiff d2 d1); eauto. intros k. symmetry. apply Hdom.
Qed.

(** ** The end of a tick *)

Lemma monitor_report_events w pl s I F :
  client s = true -> is_volume_failure pl = false ->
  running_of (init_node_status s) = Some I ->
  running_of (node_status s) = Some F ->
  events (history (monitor_report w pl s).2) =
  ((if bool_decide (I <> ∅ /\ I <> F) then [pl] else []) ++ events (history s))%list.
Proof.
  intros Hc Hv HI HF. destruct s. unfold monitor_report. unfold_monad. cbn in *.
  rewrite HI, HF, Hv. simplify_eq. cbn.
  destruct (bool_decide (I <> ∅)) eqn:E1; destruct (bool_decide (I <> F)) eqn:E2; cbn.
  all: repeat match goal with
       | H : bool_decide _ = true |- _ => apply bool_decide_eq_true in H
       | H : bool_decide _ = false |- _ => apply bool_decide_eq_false in H
       end.
  all: repeat (case_bool_decide; try tauto).
  all: exec; done.
Qed.

Lemma monitor_report_raise w pl s e s' :
  monitor_report w pl s = (Raise e, s') ->
  let f := default "None" (ctdb_service_file s) in
  grows not_write (history s) (history s') \/
  exists c h, history s' = c :: h /\
              (c = Truncated f (pnn s) \/ c = Wrote f (pnn s) (node_status s)) /\
              grows not_write (history s) h /\
              open_node_file w f (pnn s) = None.
Proof.
  intros H f. subst f. destruct s. unfold monitor_report in H. exec.
  all: first [left; by grows_done
             |right; eexists _, _; split; [reflexivity|];
              split; [by auto|]; split; [by grows_done|done]].
Qed.

Lemma grows_not_write h h' :
  grows not_write h h' ->
  Forall (fun e => is_write e = false) h ->
  Forall (fun e => is_write e = false) h'.
Proof.
  induction 1 as [|e h' He _ IH]; [done|]. intros Hh.
  constructor; [|auto]. unfold not_write in He. by destruct (is_write e).
Qed.


Lemma monitor_report_frame w pl s :
  node_status (monitor_report w pl s).2 = node_status s /\
  init_node_status (monitor_report w pl s).2 = init_node_status s.
Proof. destruct s. unfold monitor_report. exec; done. Qed.

Lemma monitor_ready w :
  ready w ->
  monitor w (__init__ w) =
  (do pl <- monitor_reconcile w; monitor_report w pl) (connected w).
Proof.
  intros Hr. unfold monitor. unfold bind at 1.
  by rewrite (init_client_ready w Hr).
Qed.

Lemma grows_Forall P h h' :
  grows P h h' -> Forall (fun e => P e = true) h -> Forall (fun e => P e = true) h'.
Proof. induction 1; [done|]. intros. constructor; auto. Qed.

Lemma monitor_reconcile_check_failed w s e s1 :
  check_ctdb_shared_volume w s = (Raise e, s1) ->
  monitor_reconcile w s = (Ok (volume_failure (exn_str e)), s1).
Proof.
  intros H. unfold monitor_reconcile. unfold_monad. by rewrite H.
Qed.

Lemma monitor_reconcile_load_failed w s s1 e s2 :
  check_ctdb_shared_volume w s = (Ok tt, s1) ->
  load_service_file w s1 = (Raise e, s2) -> exn_cls e = RuntimeError ->
  monitor_reconcile w s =
  (do l <- get_cl_services; reconcile w l (volume_failure (exn_str e)))
    (with_init_node_status (node_status s2) s2).
Proof.
  intros H1 H2 Hc. unfold monitor_reconcile. unfold_monad.
  rewrite H1. cbn. by rewrite H2, Hc.
Qed.

Lemma monitor_reconcile_loaded w s s1 s2 :
  check_ctdb_shared_volume w s = (Ok tt, s1) ->
  load_service_file w s1 = (Ok tt, s2) ->
  monitor_reconcile w s =
  (do l <- get_cl_services; reconcile w l success_payload)
    (with_init_node_status (node_status s2) s2).
Proof.
  intros H1 H2. unfold monitor_reconcile. unfold_monad.
  rewrite H1. cbn. by rewrite H2.
Qed.

(** What the first part of a tick leaves behind, whatever happens in it. *)
Lemma monitor_reconcile_spec w s r s' :
  monitor_reconcile w s = (r, s') ->
  client s' = client s /\
  grows preparing (history s) (history s') /\
  (node_status s = ∅ -> init_node_status s = ∅ ->
   forall k, node_status s' !! k = init_node_status s' !! k \/
             exists o, node_status s' !! k = Some (Entry o) /\ obs_ok o).
Proof.
  intros H.
  destruct (check_ctdb_shared_volume w s) as [[[]|e] s1] eqn:E1.
  - pose proof (check_spec _ _ _ _ E1) as (Hc1 & _ & _ & Hn1 & Hi1 & Hg1 & _).
    apply (grows_weaken _ preparing) in Hg1; [|by intros [[]| | |]].
    destruct (load_service_file w s1) as [[[]|e] s2] eqn:E2.
    all: pose proof (load_spec _ _ _ _ E2) as (Hc2 & Hi2 & _ & Hg2 & _ & Hn2).
    all: apply (grows_weaken _ preparing) in Hg2; [|by intros [[]| | |]].
    + rewrite (monitor_reconcile_loaded _ _ _ _ E1 E2) in H.
      unfold bind, get_cl_services, get in H. cbn in H.
      destruct (cl_services s2) as [l|]; cbn in H.
      * apply reconcile_spec in H as (Hobj & Hg & Hns & _).
        destruct Hobj as (Hc3 & _ & _ & _ & Hi3 & _). destruct s2; cbn in *.
        apply (grows_weaken _ preparing) in Hg; [|apply loop_effect_preparing].
        split; [congruence|]. split; [eauto using grows_trans|].
        intros _ _ k. rewrite Hi3.
        destruct (Hns k) as [?|(x & o & _ & _ & _ & ? & ?)]; [by left|right; eauto].
      * unfold raise in H. simplify_eq. destruct s2; cbn in *.
        split; [congruence|]. split; [eauto using grows_trans|].
        intros; by left.
    + destruct (exn_cls e) eqn:Ecls.
      4:{ rewrite (monitor_reconcile_load_failed _ _ _ _ _ E1 E2 Ecls) in H.
          unfold bind, get_cl_services, get in H. cbn in H.
          destruct (cl_services s2) as [l|]; cbn in H.
          - apply reconcile_spec in H as (Hobj & Hg & Hns & _).
            destruct Hobj as (Hc3 & _ & _ & _ & Hi3 & _). destruct s2; cbn in *.
            apply (grows_weaken _ preparing) in Hg; [|apply loop_effect_preparing].
            split; [congruence|]. split; [eauto using grows_trans|].
            intros _ _ k. rewrite Hi3.
            destruct (Hns k) as [?|(x & o & _ & _ & _ & ? & ?)]; [by left|right; eauto].
          - unfold raise in H. simplify_eq. destruct s2; cbn in *.
            split; [congruence|]. split; [eauto using grows_trans|].
            intros; by left. }
      all: unfold monitor_reconcile in H; unfold_monad.
      all: rewrite E1 in H; cbn in H.
      all: rewrite E2, Ecls in H; cbn in H; simplify_eq.
      all: split; [congruence|]; split; [eauto using grows_trans|].
      all: intros Hn Hi k; left; rewrite Hi2, Hi1, Hi, (Hn2 _ eq_refl), Hn1, Hn; done.
  - pose proof (check_spec _ _ _ _ E1) as (Hc1 & _ & _ & Hn1 & Hi1 & Hg1 & _).
    apply (grows_weaken _ preparing) in Hg1; [|by intros [[]| | |]].
    rewrite (monitor_reconcile_check_failed _ _ _ _ E1) in H. simplify_eq.
    split; [done|]. split; [done|].
    intros Hn Hi k. left. by rewrite Hn1, Hi1, Hn, Hi.
Qed.

Lemma loop_error_ends_tick w e s1 :
  ready w ->
  monitor_reconcile w (connected w) = (Raise e, s1) ->
  monitor w (__init__ w) = (Raise e, s1) /\
  Forall (fun e => is_write e = false) (history s1).
Proof.
  intros Hr H. split.
  - rewrite (monitor_ready w Hr). unfold bind. by rewrite H.
  - apply monitor_reconcile_spec in H as (_ & Hg & _).
    apply (grows_no_write [] (history s1)); [done|constructor].
Qed.

(** * The properties *)

Lemma example_world_ready ino services defaults prior now answer :
  ready (example_world_at ino services defaults prior now answer).
Proof. by split. Qed.




Lemma map_differs (I F : gmap string bool) :
  I <> F <-> exists k, I !! k <> F !! k.
Proof.
  split; [|by intros [k Hk] ->].
  intros Hne.
  destruct (decide (Exists (fun k => I !! k <> F !! k) (elements (dom I ∪ dom F))))
    as [Hex|Hno].
  - apply Exists_exists in Hex as (k & _ & Hk). by exists k.
  - destruct Hne. apply map_eq. intros k.
    destruct (decide (k ∈ dom I ∪ dom F)) as [Hin|Hout].
    + destruct (decide (I !! k = F !! k)) as [|Hk]; [done|].
      destruct Hno. apply Exists_exists. exists k. split; [|done].
      by apply elem_of_elements.
    + apply not_elem_of_union in Hout as [H1 H2].
      apply not_elem_of_dom in H1, H2. by rewrite H1, H2.
Qed.

(** C2 (as amended).  In a tick that gets through the loop with a result
    other than a volume failure, the change event is sent, once and with
    the tick's result, exactly when the map of running flags of the prior
    observations is not empty and differs from that of the new observations
    as a whole: at a service both have, or by a service only the new one
    has.  With empty prior observations nothing is sent; with prior
    {name: running} and new {name: not running} the event is sent once. *)
Theorem change_event_iff w pl s1 I F :
  ready w ->
  monitor_reconcile w (connected w) = (Ok pl, s1) ->
  is_volume_failure pl = false ->
  running_of (init_node_status s1) = Some I ->
  running_of (node_status s1) = Some F ->
  let sent := events (history (monitor w (__init__ w)).2) in
  (sent = [pl] <-> I <> ∅ /\ exists k, I !! k <> F !! k) /\
  (sent = [] <-> ~ (I <> ∅ /\ exists k, I !! k <> F !! k)) /\
  (I = ∅ -> sent = []) /\
  (forall name, I = {[ name := true ]} -> F = {[ name := false ]} -> sent = [pl]).
Proof.
  intros Hr E1 Hv HI HF sent.
  pose proof (monitor_reconcile_spec _ _ _ _ E1) as (Hc & Hg & _).
  assert (Hsent : sent = if bool_decide (I <> ∅ /\ I <> F) then [pl] else []).
  { unfold sent. rewrite (monitor_ready w Hr). unfold bind at 1. rewrite E1.
    rewrite (monitor_report_events w pl s1 I F); try done.
    rewrite (grows_events [] (history s1)); [|done]. cbn. by rewrite app_nil_r. }
  assert (Hiff : (I <> ∅ /\ I <> F) <-> (I <> ∅ /\ exists k, I !! k <> F !! k)).
  { split; intros [? ?]; (split; [done|]); by apply map_differs. }
  rewrite Hsent.
  assert (Hname : forall name, ({[ name := true ]} : gmap string bool) <> ∅ /\
                    ({[ name := true ]} : gmap string bool) <> {[ name := false ]}).
  { intros name. split; intros H; apply (f_equal (fun m => m !! name)) in H.
    - by rewrite lookup_singleton_eq, lookup_empty in H.
    - by rewrite !lookup_singleton_eq in H. }
  case_bool_decide as Hd.
  - split; [tauto|]. split; [split; [done|tauto]|].
    split; [intros ->; by destruct Hd as [[] _]|done].
  - split; [split; [done|tauto]|]. split; [tauto|]. split; [done|].
    intros name -> ->. destruct Hd. apply Hname.
Qed.

Lemma change_event_iff_witness :
  events (history (monitor stopping_world (__init__ stopping_world)).2) =
  [Payload MONITOR SUCCESS None None].
Proof.
  assert (E1 : monitor_reconcile stopping_world (connected stopping_world) =
               (Ok (Payload MONITOR SUCCESS None None),
                (monitor_reconcile stopping_world (connected stopping_world)).2))
    by (vm_compute; reflexivity).
  assert (HI : running_of (init_node_status
                 (monitor_reconcile stopping_world (connected stopping_world)).2) =
               Some {[ "svcA" := true ]}) by (vm_compute; reflexivity).
  assert (HF : running_of (node_status
                 (monitor_reconcile stopping_world (connected stopping_world)).2) =
               Some {[ "svcA" := false ]}) by (vm_compute; reflexivity).
  destruct (change_event_iff stopping_world _ _ _ _
              (example_world_ready _ _ _ _ _ _) E1 eq_refl HI HF)
    as (_ & _ & _ & H).
  exact (H "svcA" eq_refl eq_refl).
Defined.

(** C2 as stated fails: the prior observations know one service, running;
    the tick finds it running and records a second service for the first
    time.  On the services both maps have, the running flags agree, yet
    the change event is sent. *)
Lemma change_event_claim_fails :
  let w := newcomer_world in
  let s := (monitor w (__init__ w)).2 in
  let I : gmap string bool := {[ "svcA" := true ]} in
  let F : gmap string bool := {[ "svcA" := true; "svcB" := true ]} in
  running_of (init_node_status s) = Some I /\
  running_of (node_status s) = Some F /\
  (forall k b b', I !! k = Some b -> F !! k = Some b' -> b = b') /\
  events (history s) = [Payload MONITOR SUCCESS None None].
Proof.
  cbv zeta. split; [by vm_compute|]. split; [by vm_compute|]. split; [|by vm_compute].
  intros k b b' HI HF.
  destruct (decide (k = "svcA")) as [->|Hne].
  - rewrite lookup_singleton_eq in HI. rewrite lookup_insert_eq in HF. congruence.
  - by rewrite lookup_singleton_ne in HI.
Qed.

(** C3 (as amended).  A monitored, enabled service that is not running and
    whose start raises.  When its enabled flag is off, the turn goes on to
    ask for the flag to be switched on, outside the [try].  If that update
    returns, or the flag was on: the turn records {running: false, error: the
    message of the start}, its result becomes FAILURE with that service as
    the offender, whatever the result was before, and the loop goes on with
    the remaining services; the result at the end of the loop is the failure
    of the last service whose start raised, which is this one when no later
    start raises.  If the update raises: its error leaves the loop, wherever
    the service stands in the table, and nothing is recorded for it. *)
Theorem start_failure_recorded w x pl s info e :
  client s = true -> monitor_enable x = true -> service_enable x = true ->
  let n := srv_name x in
  let h1 := Called (service_query n) :: history s in
  let h2 := Logged WARNING (not_running_message n) :: h1 in
  let h3 := Logged WARNING (failed_start_message n) :: Called (service_start n) :: h2 in
  client_call w (history s) (service_query n) = Ok (RSrvInfo info) ->
  srvinfo_state info <> "RUNNING" ->
  client_call w h2 (service_start n) = Raise e ->
  let pl' := start_failure n (exn_str e) in
  exists s',
    match (if srvinfo_enable info then Ok RNone
           else client_call w h3 (service_update (srvinfo_id info) true)) with
    | Ok _ =>
        monitor_service w x pl s = (Ok pl', s') /\
        node_status s' =
          <[n := Entry (Obs false (clock_gettime w h1) (Some (exn_str e)))]>
            (node_status s) /\
        p_status pl' = FAILURE /\ p_service pl' = Some n /\
        (forall l, reconcile w (x :: l) pl s = reconcile w l pl' s') /\
        (forall l pl'' s'',
            reconcile w l pl' s' = (Ok pl'', s'') ->
            (exists later,
                failed_starts w (history s'') =
                  (later ++ (n, e) :: failed_starts w (history s))%list /\
                pl'' = last_failure pl' later) /\
            (pl'' = pl' \/
             exists y msg, y ∈ l /\ monitor_enable y = true /\
                           pl'' = start_failure (srv_name y) msg))
    | Raise e' =>
        monitor_service w x pl s = (Raise e', s') /\
        node_status s' = node_status s /\
        (forall l1 l2 pl0 s0,
            reconcile w l1 pl0 s0 = (Ok pl, s) ->
            reconcile w (l1 ++ x :: l2) pl0 s0 = (Raise e', s'))
    end.
Proof.
  intros Hc Hm He n h1 h2 h3 Hq Hst Hstart pl'.
  assert (Hms : exists s',
            match (if srvinfo_enable info then Ok RNone
                   else client_call w h3 (service_update (srvinfo_id info) true)) with
            | Ok _ =>
                monitor_service w x pl s = (Ok pl', s') /\
                node_status s' =
                  <[n := Entry (Obs false (clock_gettime w h1) (Some (exn_str e)))]>
                    (node_status s) /\
                failed_starts w (history s') = (n, e) :: failed_starts w (history s)
            | Raise e' =>
                monitor_service w x pl s = (Raise e', s') /\
                node_status s' = node_status s
            end).
  { destruct s, x as [n0 se me]. cbn in *. subst n h1 h2 h3 pl'. simplify_eq.
    unfold monitor_service. unfold_monad. cbn.
    rewrite Hq. cbn. rewrite (eqb_RUNNING_false _ Hst). cbn.
    rewrite Hstart. cbn.
    destruct (srvinfo_enable info); cbn.
    - eexists. split; [reflexivity|]. split; [reflexivity|]. cbn. by rewrite Hstart.
    - destruct (client_call w _ (service_update _ true)); cbn.
      + eexists. split; [reflexivity|]. split; [reflexivity|]. cbn. by rewrite Hstart.
      + eexists. split; reflexivity. }
  destruct Hms as (s' & Hms). exists s'.
  destruct (if srvinfo_enable info then Ok RNone
            else client_call w h3 (service_update (srvinfo_id info) true)) as [r|e'].
  - destruct Hms as (Hms & Hns & Hfs).
    split; [done|]. split; [done|]. split; [done|]. split; [done|]. split.
    + intros l. cbn. unfold bind. by rewrite Hms.
    + intros l pl'' s'' Hl. split.
      * apply reconcile_failed_starts in Hl as (later & Hh & ->).
        exists later. by rewrite Hh, Hfs.
      * by apply reconcile_spec in Hl as (_ & _ & _ & Hpl); apply Hpl.
  - destruct Hms as (Hms & Hns). split; [done|]. split; [done|].
    intros l1 l2 pl0 s0 H1. rewrite reconcile_app, H1. cbn. unfold bind.
    by rewrite Hms.
Qed.

Lemma start_failure_recorded_witness :
  let w := example_world [svcA] (Raise no_file) 100 port_in_use in
  exists s',
    monitor_service w svcA success_payload (connected w) =
      (Ok (start_failure "svcA" "port in use"), s') /\
    node_status s' = {[ "svcA" := Entry (Obs false 100 (Some "port in use")) ]}.
Proof.
  intros w.
  destruct (start_failure_recorded w svcA success_payload (connected w)
              (SrvInfo 1 "STOPPED" true) (Exn CallError "port in use")
              eq_refl eq_refl eq_refl eq_refl ltac:(discriminate) eq_refl)
    as (s' & Hms & Hns & _).
  exists s'. split; [exact Hms|exact Hns].
Defined.

(** C3 as stated fails: the service is stopped, its enabled flag is off, its
    start raises, and so does the update of the flag that follows.  The error
    of the update ends the tick: the failure of the start is neither recorded
    nor reported, and the per-node file is not opened. *)
Lemma start_failure_claim_fails :
  let w := example_world [svcA] (Raise no_file) 100 start_and_update_fail in
  let r := monitor w (__init__ w) in
  Called (service_start "svcA") ∈ history r.2 /\
  r.1 = Raise (Exn CallError "timed out") /\
  node_status r.2 !! "svcA" = None /\
  events (history r.2) = [] /\
  Forall (fun e => is_write e = false) (history r.2).
Proof.
  cbv zeta. split; [vm_compute; repeat constructor|].
  split; [by vm_compute|]. split; [by vm_compute|]. split; [by vm_compute|].
  vm_compute. repeat constructor.
Qed.

(** C4 (as amended).  A monitored service that is not wanted: the turn asks
    for it to be disabled when its enabled flag is on and, that call having
    returned, for it to be stopped when it is running.  When the calls made
    return, whatever they return, the turn records {running: false, error:
    None} and leaves the result as it was.  When the update raises, the stop
    is not asked for; when the update or the stop raises, the error leaves
    the loop, wherever the service stands in the table, and nothing is
    recorded for the service.  An error that leaves the first part of the
    tick (the check, the load, the loop) ends the tick, and the per-node file
    has not been opened. *)
Theorem unwanted_service_stopped w x pl s info :
  client s = true -> monitor_enable x = true -> service_enable x = false ->
  let n := srv_name x in
  let h1 := Called (service_query n) :: history s in
  let upd := if srvinfo_enable info
             then [Called (service_update (srvinfo_id info) false)] else [] in
  let stp := if String.eqb (srvinfo_state info) "RUNNING"
             then [Called (service_stop n)] else [] in
  client_call w (history s) (service_query n) = Ok (RSrvInfo info) ->
  (exists s',
    match (if srvinfo_enable info
           then client_call w h1 (service_update (srvinfo_id info) false)
           else Ok RNone) with
    | Raise e =>
        monitor_service w x pl s = (Raise e, s') /\
        history s' = (upd ++ h1)%list /\
        node_status s' = node_status s
    | Ok _ =>
        history s' = (stp ++ upd ++ h1)%list /\
        match (if String.eqb (srvinfo_state info) "RUNNING"
               then client_call w (upd ++ h1)%list (service_stop n) else Ok RNone) with
        | Ok _ =>
            monitor_service w x pl s = (Ok pl, s') /\
            node_status s' =
              <[n := Entry (Obs false (clock_gettime w h1) None)]> (node_status s)
        | Raise e =>
            monitor_service w x pl s = (Raise e, s') /\
            node_status s' = node_status s
        end
    end) /\
  (forall e s' l1 l2 pl0 s0,
      monitor_service w x pl s = (Raise e, s') ->
      reconcile w l1 pl0 s0 = (Ok pl, s) ->
      reconcile w (l1 ++ x :: l2) pl0 s0 = (Raise e, s')) /\
  (forall e s1,
      ready w ->
      monitor_reconcile w (connected w) = (Raise e, s1) ->
      monitor w (__init__ w) = (Raise e, s1) /\
      Forall (fun e => is_write e = false) (history s1)).
Proof.
  intros Hc Hm He n h1 upd stp Hq. split; [|split].
  - destruct s, x as [n0 se me]. cbn in *. subst n h1 upd stp. simplify_eq.
    unfold monitor_service. unfold_monad. cbn.
    rewrite Hq. cbn.
    destruct (srvinfo_enable info); cbn.
    + destruct (client_call w _ (service_update _ false)); cbn.
      * destruct (String.eqb (srvinfo_state info) "RUNNING"); cbn.
        -- destruct (client_call w _ (service_stop n0)); cbn.
           all: eexists; split; [|split; [reflexivity|]]; reflexivity.
        -- eexists; split; [|split; [reflexivity|]]; reflexivity.
      * eexists. split; [reflexivity|]. split; reflexivity.
    + destruct (String.eqb (srvinfo_state info) "RUNNING"); cbn.
      * destruct (client_call w _ (service_stop n0)); cbn.
        all: eexists; split; [|split; [reflexivity|]]; reflexivity.
      * eexists; split; [|split; [reflexivity|]]; reflexivity.
  - intros e s' l1 l2 pl0 s0 Hms H1. rewrite reconcile_app, H1. cbn. unfold bind.
    by rewrite Hms.
  - intros e s1 Hr H. by apply loop_error_ends_tick.
Qed.

Lemma unwanted_service_stopped_witness :
  let w := stopping_world in
  let x := Srv "svcA" false true in
  exists s',
    history s' = [Called (service_stop "svcA"); Called (service_update 1 false);
                  Called (service_query "svcA")] /\
    monitor_service w x success_payload (connected w) = (Ok success_payload, s') /\
    node_status s' = {[ "svcA" := Entry (Obs false 100 None) ]}.
Proof.
  intros w x.
  destruct (unwanted_service_stopped w x success_payload (connected w)
              (SrvInfo 1 "RUNNING" true) eq_refl eq_refl eq_refl eq_refl)
    as ((s' & Hh & Hms) & _).
  exists s'. split; [exact Hh|exact Hms].
Defined.

(** C4 as stated fails: the service runs and is not wanted, and the stop
    call raises.  The error ends the tick: no observation is recorded for
    the service and the per-node file is not written. *)
Lemma stop_failure_claim_fails :
  let w := example_world [Srv "svcA" false true] (Raise no_file) 100 stop_times_out in
  let r := monitor w (__init__ w) in
  r.1 = Raise (Exn CallError "timed out") /\
  node_status r.2 !! "svcA" = None /\
  Called (service_stop "svcA") ∈ history r.2 /\
  Forall (fun e => is_write e = false) (history r.2).
Proof.
  cbv zeta. split; [by vm_compute|]. split; [by vm_compute|].
  split; vm_compute; repeat constructor.
Qed.

(** C9 (as amended).  One service, wanted and monitored, that the middleware
    reports as stopped and that starts when asked to.  When its enabled flag
    is off, the turn goes on to ask for the flag to be switched on.  If that
    update returns, or the flag was on: the loop records {running: true,
    error: None} for the service and the result of the tick stays SUCCESS.
    If the update raises: its error leaves the loop and nothing is recorded
    for the service. *)
Theorem start_success_recorded w name s info r :
  client s = true ->
  let x := Srv name true true in
  let h1 := Called (service_query name) :: history s in
  let h2 := Logged WARNING (not_running_message name) :: h1 in
  client_call w (history s) (service_query name) = Ok (RSrvInfo info) ->
  srvinfo_state info = "STOPPED" ->
  client_call w h2 (service_start name) = Ok r ->
  exists s',
    match (if srvinfo_enable info then Ok RNone
           else client_call w (Called (service_start name) :: h2)
                  (service_update (srvinfo_id info) true)) with
    | Ok _ =>
        reconcile w [x] success_payload s = (Ok success_payload, s') /\
        p_status success_payload = SUCCESS /\
        node_status s' !! name = Some (Entry (Obs true (clock_gettime w h1) None)) /\
        node_status s' =
          <[name := Entry (Obs true (clock_gettime w h1) None)]> (node_status s)
    | Raise e =>
        reconcile w [x] success_payload s = (Raise e, s') /\
        node_status s' = node_status s
    end.
Proof.
  intros Hc x h1 h2 Hq Hst Hstart.
  destruct s. cbn in *. subst x h1 h2. simplify_eq.
  unfold monitor_service. unfold_monad. cbn.
  rewrite Hq. cbn. rewrite Hst. cbn. rewrite Hstart. cbn.
  destruct (srvinfo_enable info); cbn.
  - eexists. split; [done|]. split; [done|]. cbn. by rewrite lookup_insert_eq.
  - destruct (client_call w _ (service_update _ true)); cbn.
    + eexists. split; [done|]. split; [done|]. cbn. by rewrite lookup_insert_eq.
    + eexists. split; reflexivity.
Qed.

Lemma start_success_recorded_witness :
  let w := example_world [svcA] (Raise no_file) 100 all_stopped in
  exists s',
    reconcile w [svcA] success_payload (connected w) = (Ok success_payload, s') /\
    node_status s' !! "svcA" = Some (Entry (Obs true 100 None)).
Proof.
  intros w.
  destruct (start_success_recorded w "svcA" (connected w)
              (SrvInfo 1 "STOPPED" true) RNone eq_refl eq_refl eq_refl eq_refl)
    as (s' & Hr & _ & Hn & _).
  exists s'. split; [exact Hr|exact Hn].
Defined.

(** C9 as stated fails: the service is stopped, its enabled flag is off, it
    starts when asked to, and the update of the flag that follows raises.
    The error ends the tick: nothing is recorded for the service, nothing is
    reported, and the per-node file is not opened. *)
Lemma start_success_claim_fails :
  let w := example_world [svcA] (Raise no_file) 100 update_fails in
  let r := monitor w (__init__ w) in
  client_call w [] (service_start "svcA") = Ok RNone /\
  Called (service_start "svcA") ∈ history r.2 /\
  r.1 = Raise (Exn CallError "timed out") /\
  node_status r.2 !! "svcA" = None /\
  events (history r.2) = [] /\
  Forall (fun e => is_write e = false) (history r.2).
Proof.
  cbv zeta. split; [done|]. split; [vm_compute; repeat constructor|].
  split; [by vm_compute|]. split; [by vm_compute|]. split; [by vm_compute|].
  vm_compute. repeat constructor.
Qed.

(** C7.  A service of the table that is not monitored (and whose name no
    monitored service of the table bears): the loop leaves what the
    observations hold under its name as it was, an entry unchanged and no
    entry absent, however the loop ends. *)
Theorem unmonitored_untouched w l pl s x :
  x ∈ l -> monitor_enable x = false ->
  (forall y, y ∈ l -> monitor_enable y = true -> srv_name y <> srv_name x) ->
  node_status (reconcile w l pl s).2 !! srv_name x = node_status s !! srv_name x.
Proof.
  intros Hx Hm Huniq.
  destruct (reconcile w l pl s) as [r s'] eqn:E.
  apply reconcile_spec in E as (_ & _ & Hns & _).
  destruct (Hns (srv_name x)) as [?|(y & o & Hy & Hmy & Hname & _)]; [done|].
  by destruct (Huniq y Hy Hmy).
Qed.

Lemma unmonitored_untouched_witness :
  let w := example_world [Srv "svcB" true false; svcA]
             (Ok {[ "svcB" := Entry (Obs false 50 (Some "port in use")) ]})
             100 all_stopped in
  let s := with_node_status {[ "svcB" := Entry (Obs false 50 (Some "port in use")) ]}
             (connected w) in
  node_status (reconcile w [Srv "svcB" true false; svcA] success_payload s).2 !! "svcB" =
  Some (Entry (Obs false 50 (Some "port in use"))).
Proof.
  intros w s.
  refine (unmonitored_untouched w [Srv "svcB" true false; svcA] success_payload s
            (Srv "svcB" true false) _ eq_refl _).
  - apply list_elem_of_here.
  - intros y Hy Hm.
    apply elem_of_cons in Hy as [->|Hy]; [discriminate Hm|].
    apply elem_of_cons in Hy as [->|Hy]; [discriminate|].
    by apply elem_of_nil in Hy.
Defined.

Lemma reconcile_writes w l : forall pl s pl' s' x,
  reconcile w l pl s = (Ok pl', s') ->
  x ∈ l -> monitor_enable x = true ->
  exists o, node_status s' !! srv_name x = Some (Entry o) /\ obs_ok o.
Proof.
  induction l as [|y l IH]; intros pl s pl' s' x H Hx Hm.
  - by apply elem_of_nil in Hx.
  - cbn [reconcile] in H. unfold bind in H.
    destruct (monitor_service w y pl s) as [[pl1|e1] s1] eqn:E1; [|done].
    apply elem_of_cons in Hx as [->|Hx]; [|by eapply IH].
    apply monitor_service_spec in E1 as (_ & _ & [[_ [[_ ?]|[? ?]]]|Hw]);
      [congruence|done|].
    destruct Hw as (o & pl2 & _ & _ & Hn1 & Hok & _).
    apply reconcile_spec in H as (_ & _ & Hns & _).
    destruct (Hns (srv_name y)) as [Hk|(z & o' & _ & _ & _ & ? & ?)]; [|by eauto].
    exists o. split; [|done]. by rewrite Hk, Hn1, lookup_insert_eq.
Qed.

Lemma init_client_true w s0 :
  init_client w (__init__ w) = (Ok true, s0) -> s0 = connected w.
Proof. intros E0. unfold init_client in E0. unfold connected. exec; done. Qed.

Lemma init_client_no_raise w e s0 : init_client w (__init__ w) <> (Raise e, s0).
Proof. intros E0. unfold init_client in E0. exec. Qed.

Lemma init_client_false w s0 :
  init_client w (__init__ w) = (Ok false, s0) ->
  node_status s0 = ∅ /\ init_node_status s0 = ∅ /\
  Forall (fun e => is_log e = true) (history s0).
Proof.
  intros E0. unfold init_client in E0. exec; repeat split; by repeat constructor.
Qed.

Lemma monitor_unfold w :
  monitor w (__init__ w) =
  match init_client w (__init__ w) with
  | (Ok true, s0) =>
      match monitor_reconcile w s0 with
      | (Ok pl, s1) => monitor_report w pl s1
      | (Raise e, s1) => (Raise e, s1)
      end
  | (Ok false, s0) => log DEBUG "middlewared is not ready. Skipping monitoring" s0
  | (Raise e, s0) => (Raise e, s0)
  end.
Proof.
  unfold monitor, bind. by destruct (init_client w (__init__ w)) as [[[]|] ?].
Qed.

Lemma no_write_not_in h f n c :
  Forall (fun e => is_write e = false) h -> Wrote f n c ∉ h.
Proof. rewrite Forall_forall. intros H Hin. by apply H in Hin. Qed.

Lemma grows_preparing_not_wrote h f n c :
  grows preparing [] h -> Wrote f n c ∉ h.
Proof.
  intros Hg. apply no_write_not_in. apply (grows_no_write [] h Hg). constructor.
Qed.

Lemma monitor_report_wrote w pl s f n c :
  Wrote f n c ∈ history (monitor_report w pl s).2 ->
  Wrote f n c ∈ history s \/ c = node_status s.
Proof.
  destruct s. unfold monitor_report. exec; intros H; auto.
  all: repeat (apply elem_of_cons in H as [H|H]; simplify_eq); auto.
Qed.

(** C10.  An entry the loop writes has an error only if running is false,
    and running true only if there is no error.  When the loop returns,
    every monitored service of the table has such an entry; however the loop
    ends, under each name the observations hold either what they held
    before or such an entry.  The same holds of a whole tick, from what was
    loaded at its start; and what the tick writes to the per-node file is
    these observations. *)
Theorem error_implies_not_running w :
  (forall l pl s pl' s' x,
      reconcile w l pl s = (Ok pl', s') ->
      x ∈ l -> monitor_enable x = true ->
      exists o, node_status s' !! srv_name x = Some (Entry o) /\
                (error o <> None -> running o = false) /\
                (running o = true -> error o = None)) /\
  (forall l pl s k,
      let s' := (reconcile w l pl s).2 in
      node_status s' !! k = node_status s !! k \/
      exists o, node_status s' !! k = Some (Entry o) /\
                (error o <> None -> running o = false) /\
                (running o = true -> error o = None)) /\
  (let s' := (monitor w (__init__ w)).2 in
   (forall k,
       node_status s' !! k = init_node_status s' !! k \/
       exists o, node_status s' !! k = Some (Entry o) /\
                 (error o <> None -> running o = false) /\
                 (running o = true -> error o = None)) /\
   (forall f n c, Wrote f n c ∈ history s' -> c = node_status s')).
Proof.
  split; [|split].
  - intros l pl s pl' s' x H Hx Hm. by eapply reconcile_writes.
  - intros l pl s k s'. subst s'.
    destruct (reconcile w l pl s) as [r s'] eqn:E.
    apply reconcile_spec in E as (_ & _ & Hns & _).
    destruct (Hns k) as [?|(y & o & _ & _ & _ & ? & ?)]; [by left|right; eauto].
  - cbv zeta. rewrite monitor_unfold.
    destruct (init_client w (__init__ w)) as [[[]|e] s0] eqn:E0.
    + apply init_client_true in E0 as ->.
      destruct (monitor_reconcile w (connected w)) as [[pl|e] s1] eqn:E1;
        pose proof (monitor_reconcile_spec _ _ _ _ E1) as (_ & Hg & Hns);
        specialize (Hns eq_refl eq_refl).
      * destruct (monitor_report_frame w pl s1) as [-> ->].
        split; [done|]. intros f n c Hw.
        apply monitor_report_wrote in Hw as [Hw|Hw]; [|done].
        by apply (grows_preparing_not_wrote _ _ _ _ Hg) in Hw.
      * split; [done|]. intros f n c Hw.
        by apply (grows_preparing_not_wrote _ _ _ _ Hg) in Hw.
    + apply init_client_false in E0 as (Hn & Hi & Hl).
      unfold_monad. cbn. rewrite Hn, Hi. split; [by left|]. intros f n c Hw.
      apply elem_of_cons in Hw as [Hw|Hw]; [done|].
      rewrite Forall_forall in Hl. by apply Hl in Hw.
    + by apply init_client_no_raise in E0.
Qed.

Lemma error_implies_not_running_witness :
  let w := example_world [svcA] (Raise no_file) 100 port_in_use in
  exists o,
    node_status (reconcile w [svcA] success_payload (connected w)).2 !! "svcA" =
      Some (Entry o) /\
    (error o <> None -> running o = false) /\
    (running o = true -> error o = None).
Proof.
  intros w.
  destruct (error_implies_not_running w) as (H & _ & _).
  exact (H [svcA] success_payload (connected w) _ _ svcA eq_refl
           (list_elem_of_here _ _) eq_refl).
Defined.

(** C8 (as amended).  When the client cannot be set up (the middleware has
    not started, or [Client()] raises), the tick is skipped: a debug message
    is logged, no error is raised, nothing is called, recorded or written.
    Once the client is set up, an error of a call is not handled (that of a
    start attempt apart): a query that raises ends the loop with that error;
    an error that leaves the first part of the tick (the check, the load,
    the loop) is the error of the tick, and the per-node file has not been
    opened.  A tick that ends with an error has not opened the per-node file,
    unless the error arose in the write itself, as the last thing the tick
    did, after the file was opened. *)
Theorem client_unavailable w :
  (sentinel_exists w = false \/ Client w <> None ->
   exists s',
     monitor w (__init__ w) = (Ok tt, s') /\
     node_status s' = ∅ /\ same_object (__init__ w) s' /\
     Logged DEBUG "middlewared is not ready. Skipping monitoring" ∈ history s' /\
     Forall (fun e => is_log e = true) (history s')) /\
  (forall x l pl s e,
      client s = true -> monitor_enable x = true ->
      client_call w (history s) (service_query (srv_name x)) = Raise e ->
      (reconcile w (x :: l) pl s).1 = Raise e /\
      node_status (reconcile w (x :: l) pl s).2 = node_status s) /\
  (forall e s1,
      ready w ->
      monitor_reconcile w (connected w) = (Raise e, s1) ->
      monitor w (__init__ w) = (Raise e, s1) /\
      Forall (fun e => is_write e = false) (history s1)) /\
  (forall e s',
      monitor w (__init__ w) = (Raise e, s') ->
      Forall (fun e => is_write e = false) (history s') \/
      exists f n h,
        open_node_file w f n = None /\
        Forall (fun e => is_write e = false) h /\
        (history s' = Truncated f n :: h \/
         history s' = Wrote f n (node_status s') :: h)).
Proof.
  split; [|split; [|split]].
  - intros Hn. unfold monitor, init_client. unfold_monad. cbn.
    destruct (sentinel_exists w) eqn:Es; cbn.
    + destruct (Client w) eqn:Ec; [|by destruct Hn]. cbn.
      eexists. split; [done|]. cbn. rewrite Es. repeat split; try done.
      * apply list_elem_of_here.
      * by repeat constructor.
    + eexists. split; [done|]. cbn. rewrite Es. repeat split; try done.
      * apply list_elem_of_here.
      * by repeat constructor.
  - intros x l pl s e Hc Hm Hq. destruct s, x as [n se me]. cbn in *. simplify_eq.
    unfold monitor_service. unfold_monad. cbn. by rewrite Hq.
  - intros e s1 Hr H. by apply loop_error_ends_tick.
  - intros e s' H. rewrite monitor_unfold in H.
    destruct (init_client w (__init__ w)) as [[[]|e0] s0] eqn:E0.
    + apply init_client_true in E0 as ->.
      destruct (monitor_reconcile w (connected w)) as [[pl|e1] s1] eqn:E1;
        pose proof (monitor_reconcile_spec _ _ _ _ E1) as (_ & Hg & _);
        (apply (grows_no_write [] (history s1)) in Hg; [|constructor]).
      * destruct (monitor_report_frame w pl s1) as [Hns _]. rewrite H in Hns.
        apply monitor_report_raise in H as [H|(c & h & Hh & Hc & Hgh & Ho)].
        -- left. exact (grows_not_write _ _ H Hg).
        -- right. eexists _, _, h. split; [exact Ho|].
           split; [exact (grows_not_write _ _ Hgh Hg)|].
           cbn in Hns. rewrite Hns, Hh. destruct Hc as [->| ->]; auto.
      * simplify_eq. by left.
    + unfold_monad. by simplify_eq.
    + by apply init_client_no_raise in E0.
Qed.

Lemma client_unavailable_witness :
  exists s',
    monitor not_started_world (__init__ not_started_world) = (Ok tt, s') /\
    node_status s' = ∅ /\
    history s' = [Logged DEBUG "middlewared is not ready. Skipping monitoring"].
Proof.
  destruct (client_unavailable not_started_world) as [H _].
  destruct (H (or_introl eq_refl)) as (s' & Hm & Hn & _).
  exists s'. split; [exact Hm|]. split; [exact Hn|].
  injection Hm as <-. reflexivity.
Defined.

(** C8 as stated fails: the client is set up, then every call raises.  The
    error of the first query is raised to the caller of the tick. *)
Lemma graceful_claim_fails :
  let w := example_world [svcA] (Raise no_file) 100 unreachable in
  (monitor w (__init__ w)).1 = Raise (Exn CallError "Failed connection handshake") /\
  Called (service_query "svcA") ∈ history (monitor w (__init__ w)).2.
Proof. cbv zeta. split; [by vm_compute|]. vm_compute. repeat constructor. Qed.

(** ** Startup *)

Lemma elem_of_rev {A} (x : A) (l : list A) : x ∈ rev l <-> x ∈ l.
Proof. rewrite !list_elem_of_In. symmetry. apply in_rev. Qed.

Lemma for_each_restart w l : forall s,
  client s = true ->
  (forall h n, exists r, client_call w h (service_restart n) = Ok r) ->
  for_each (startup_restart w) l s =
  (Ok tt, with_history (rev (restarted l) ++ history s) s).
Proof.
  induction l as [|x l IH]; intros s Hc Hok.
  - destruct s. by cbn.
  - cbn [for_each]. unfold bind at 1. unfold startup_restart at 1.
    unfold restarted. cbn [List.filter].
    destruct (monitor_enable x && service_enable x) eqn:E.
    + unfold_monad. rewrite Hc.
      destruct (Hok (history s) (srv_name x)) as [r Hr]. rewrite Hr. cbn.
      rewrite IH; [|done..]. destruct s. cbn in *. subst. unfold restarted.
      by rewrite <- app_assoc.
    + unfold ret at 1. by rewrite IH.
Qed.

Lemma startup_unfold w :
  ready w ->
  startup w (__init__ w) =
  match check_ctdb_shared_volume w (connected w) with
  | (Ok _, s1) =>
      if negb (path_exists w (default "None" (ctdb_service_file s1))) then (Ok tt, s1)
      else
        (run load_service_file w;
         do l <- get_cl_services;
         run for_each (startup_restart w) l;
         run call w (ctdb_event_process (Payload STARTUP SUCCESS None None));
         ret tt) s1
  | (Raise e, s1) =>
      (run call w (ctdb_event_process
                     (Payload STARTUP FAILURE (Some (exn_str e)) None));
       raise e) s1
  end.
Proof.
  intros Hr. unfold startup. unfold bind at 1. rewrite (init_client_ready w Hr).
  cbn [negb]. cbv iota. unfold bind at 1. unfold try_except at 1.
  destruct (check_ctdb_shared_volume w (connected w)) as [[[]|e] s1].
  2:{ unfold call, bind, get, emit, modify, lift, raise, ret.
      destruct (client s1); [|done]. by destruct (client_call w _ _). }
  unfold bind at 1. unfold get_ctdb_service_file, bind, get, ret.
  by destruct (negb _).
Qed.

(** C6 (as amended).  On STARTUP, once the client is set up: when the
    check of the shared volume fails, a FAILURE status is reported with the
    error as its reason and the error is raised to the caller, no service
    being touched; when the volume is mounted and the cluster service file
    does not exist, the hook returns and neither restarts nor reports
    anything; when the file exists and loads, every service of the table
    that is both enabled and monitored is restarted, in the order of the
    table and without a query of its state, and then a SUCCESS status is
    reported (the restart calls are assumed to return). *)
Theorem startup_outcomes w :
  ready w ->
  (forall e s1,
      check_ctdb_shared_volume w (connected w) = (Raise e, s1) ->
      let pl := Payload STARTUP FAILURE (Some (exn_str e)) None in
      exists s',
        startup w (__init__ w) =
          (Raise (match client_call w (history s1) (ctdb_event_process pl) with
                  | Ok _ => e
                  | Raise e' => e'
                  end), s') /\
        history s' = Called (ctdb_event_process pl) :: history s1 /\
        events (history s') = [pl] /\
        Forall (fun e => touches_service e = false) (history s')) /\
  (forall s1 f,
      check_ctdb_shared_volume w (connected w) = (Ok tt, s1) ->
      ctdb_service_file s1 = Some f -> path_exists w f = false ->
      startup w (__init__ w) = (Ok tt, s1) /\
      events (history s1) = [] /\
      Forall (fun e => touches_service e = false) (history s1)) /\
  (forall s1 f s2 l,
      check_ctdb_shared_volume w (connected w) = (Ok tt, s1) ->
      ctdb_service_file s1 = Some f -> path_exists w f = true ->
      load_service_file w s1 = (Ok tt, s2) ->
      cl_services s2 = Some l ->
      (forall h n, exists r, client_call w h (service_restart n) = Ok r) ->
      let pl := Payload STARTUP SUCCESS None None in
      let h := (rev (restarted l) ++ history s2)%list in
      exists s',
        startup w (__init__ w) =
          (match client_call w h (ctdb_event_process pl) with
           | Ok _ => Ok tt
           | Raise e => Raise e
           end, s') /\
        history s' = Called (ctdb_event_process pl) :: h /\
        events (history s') = [pl] /\
        (forall n, Called (service_query n) ∉ history s') /\
        (forall x, x ∈ l -> monitor_enable x = true -> service_enable x = true ->
                   Called (service_restart (srv_name x)) ∈ history s')).
Proof.
  intros Hr. split; [|split].
  - intros e s1 E1 pl. subst pl. rewrite (startup_unfold w Hr), E1.
    pose proof (check_spec _ _ _ _ E1) as (Hc1 & _ & _ & _ & _ & Hg1 & _).
    cbn in Hc1, Hg1. unfold_monad. rewrite Hc1.
    assert (Hv : Forall (fun e => volume_effect e = true) (history s1)).
    { by eapply grows_Forall. }
    assert (Hev : events (history s1) = []).
    { rewrite (grows_events [] (history s1)); [done|].
      eapply grows_weaken; [|exact Hg1]. by intros [[]| | |]. }
    destruct s1; cbn in *.
    destruct (client_call w history0 (ctdb_event_process _)); cbn.
    all: eexists; split; [reflexivity|]; cbn.
    all: split; [done|]; split; [by rewrite Hev|].
    all: constructor; [done|].
    all: eapply Forall_impl; [exact Hv|]; by intros [[]| | |].
  - intros s1 f E1 Hf Hp. rewrite (startup_unfold w Hr), E1, Hf. cbn. rewrite Hp. cbn.
    pose proof (check_spec _ _ _ _ E1) as (_ & _ & _ & _ & _ & Hg1 & _).
    cbn in Hg1. split; [done|]. split.
    + rewrite (grows_events [] (history s1)); [done|].
      eapply grows_weaken; [|exact Hg1]. by intros [[]| | |].
    + assert (Hv : Forall (fun e => volume_effect e = true) (history s1)).
      { by eapply grows_Forall. }
      eapply Forall_impl; [exact Hv|]. by intros [[]| | |].
  - intros s1 f s2 l E1 Hf Hp E2 Hl Hok pl h. subst pl.
    rewrite (startup_unfold w Hr), E1, Hf. cbn. rewrite Hp. cbn.
    pose proof (check_spec _ _ _ _ E1) as (Hc1 & _ & _ & _ & _ & Hg1 & _).
    pose proof (load_spec _ _ _ _ E2) as (Hc2 & _ & _ & Hg2 & _ & _).
    cbn in Hc1, Hg1.
    assert (Hc : client s2 = true) by congruence.
    assert (Hg : grows (fun e => volume_effect e || is_log e) [] (history s2)).
    { eapply grows_trans.
      - eapply grows_weaken; [|exact Hg1]. by intros [[]| | |].
      - eapply grows_weaken; [|exact Hg2]. by intros [[]| | |]. }
    assert (Hq : Forall (fun e => volume_effect e || is_log e = true) (history s2)).
    { by eapply grows_Forall. }
    unfold bind at 1. rewrite E2.
    unfold bind at 1. unfold get_cl_services, bind, get. rewrite Hl. unfold ret at 1.
    rewrite (for_each_restart w l s2 Hc Hok).
    unfold call, bind, get, emit, modify, lift, ret, raise. subst h. destruct s2; cbn in *.
    rewrite Hc.
    eexists. split; [by destruct (client_call w _ (ctdb_event_process _))|].
    cbn. split; [done|].
    assert (Hin : forall x, x ∈ l -> monitor_enable x = true -> service_enable x = true ->
                    Called (service_restart (srv_name x)) ∈ restarted l).
    { intros x Hx Hm He. unfold restarted. apply list_elem_of_In, in_map_iff.
      exists x. split; [done|]. apply filter_In. split; [by apply list_elem_of_In|].
      by rewrite Hm, He. }
    assert (Hres : Forall (fun e => exists n, e = Called (service_restart n)) (restarted l)).
    { unfold restarted. apply Forall_forall. intros e He.
      apply list_elem_of_In, in_map_iff in He as (x & <- & _). by eexists. }
    split; [|split].
    + f_equal.
      assert (Hev : forall l1 l2, Forall (fun e => exists n, e = Called (service_restart n)) l1 ->
                events (l1 ++ l2) = events l2).
      { intros l1 l2 H. induction H as [|e1 l1 [n ->] _ IH]; [done|]. by cbn. }
      rewrite Hev; [|by apply Forall_rev].
      rewrite (grows_events [] history0); [done|].
      eapply grows_weaken; [|exact Hg]. by intros [[]| | |].
    + intros n Hn. apply elem_of_cons in Hn as [Hn|Hn]; [done|].
      apply elem_of_app in Hn as [Hn|Hn].
      * apply (proj1 (elem_of_rev _ _)) in Hn. rewrite Forall_forall in Hres.
        apply Hres in Hn as [? ?]. done.
      * rewrite Forall_forall in Hq. by apply Hq in Hn.
    + intros x Hx Hm He. apply list_elem_of_further, elem_of_app. left.
      apply (proj2 (elem_of_rev _ _)). by apply Hin.
Qed.

Lemma startup_outcomes_witness :
  (exists s',
      startup unmounted_world (__init__ unmounted_world) =
        (Raise (Exn RuntimeError "ctdb shared volume not mounted"), s') /\
      events (history s') =
        [Payload STARTUP FAILURE (Some "ctdb shared volume not mounted") None]) /\
  (exists s',
      startup startup_world (__init__ startup_world) = (Ok tt, s') /\
      history s' = [Called (ctdb_event_process (Payload STARTUP SUCCESS None None));
                    Called (service_restart "svcA")]).
Proof.
  split.
  - destruct (startup_outcomes unmounted_world (example_world_ready _ _ _ _ _ _))
      as (H & _ & _).
    destruct (H (Exn RuntimeError "ctdb shared volume not mounted") _ eq_refl)
      as (s' & Hs & _ & He & _).
    exists s'. split; [exact Hs|exact He].
  - destruct (startup_outcomes startup_world (example_world_ready _ _ _ _ _ _))
      as (_ & _ & H).
    destruct (H _ _ _ _ eq_refl eq_refl eq_refl eq_refl eq_refl
                (fun _ _ => ex_intro _ RNone eq_refl))
      as (s' & Hs & Hh & _).
    exists s'. split; [exact Hs|exact Hh].
Defined.

(** C6 as stated fails: the volume is mounted (the check passes) and the
    cluster service file does not exist.  The hook returns without a
    restart and without reporting SUCCESS. *)
Lemma startup_claim_fails :
  let w := no_service_file_world in
  (check_ctdb_shared_volume w (connected w)).1 = Ok tt /\
  (startup w (__init__ w)).1 = Ok tt /\
  events (history (startup w (__init__ w)).2) = [] /\
  history (startup w (__init__ w)).2 = [].
Proof. cbv zeta. repeat split; by vm_compute. Qed.

(** ** Ticks on a steady node *)

Lemma settled_cons x l d :
  settled (x :: l) d =
  settled l (if monitor_enable x
             then <[srv_name x := Entry (Obs (service_enable x) 0 None)]> d
             else d).
Proof. done. Qed.

Lemma settled_frame l : forall d k,
  settled l d !! k = d !! k \/ monitored_name l k.
Proof.
  induction l as [|x l IH]; intros d k; [by left|].
  rewrite settled_cons.
  destruct (IH (if monitor_enable x
                then <[srv_name x := Entry (Obs (service_enable x) 0 None)]> d
                else d) k) as [Hk|(y & Hy & Hm & Hn)].
  - destruct (monitor_enable x) eqn:Em; [|by left].
    destruct (decide (srv_name x = k)) as [Heq|Hne].
    + right. exists x. split; [apply list_elem_of_here|done].
    + left. by rewrite Hk, lookup_insert_ne.
  - right. exists y. split; [by apply list_elem_of_further|done].
Qed.

Lemma settled_ext l : forall d d',
  (forall k, d !! k = d' !! k \/ monitored_name l k) ->
  settled l d = settled l d'.
Proof.
  induction l as [|x l IH]; intros d d' H.
  - cbn. apply map_eq. intros k. destruct (H k) as [?|(y & Hy & _)]; [done|].
    by apply elem_of_nil in Hy.
  - rewrite !settled_cons. apply IH. intros k.
    destruct (monitor_enable x) eqn:Em.
    + destruct (decide (srv_name x = k)) as [<-|Hne].
      * left. by rewrite !lookup_insert_eq.
      * rewrite !lookup_insert_ne by done.
        destruct (H k) as [?|(y & Hy & Hm & Hn)]; [by left|].
        apply elem_of_cons in Hy as [->|Hy]; [done|].
        right. by exists y.
    + destruct (H k) as [?|(y & Hy & Hm & Hn)]; [by left|].
      apply elem_of_cons in Hy as [->|Hy]; [congruence|].
      right. by exists y.
Qed.

Lemma settled_idem l d : settled l (settled l d) = settled l d.
Proof. apply settled_ext. intros k. apply settled_frame. Qed.

Lemma steady_tail w x l : steady w (x :: l) -> steady w l.
Proof. intros H h y Hy. apply H. by apply list_elem_of_further. Qed.

Lemma monitor_service_steady w x pl s :
  client s = true ->
  steady w [x] ->
  exists s',
    monitor_service w x pl s = (Ok pl, s') /\ client s' = true /\
    init_node_status s' = init_node_status s /\
    grows loop_effect (history s) (history s') /\
    forget_last_check <$> node_status s' =
      (if monitor_enable x
       then <[srv_name x := Entry (Obs (service_enable x) 0 None)]>
              (forget_last_check <$> node_status s)
       else forget_last_check <$> node_status s).
Proof.
  intros Hc Hst. destruct s, x as [n se me]. cbn in *. simplify_eq.
  unfold monitor_service. cbn.
  destruct me; cbn.
  2:{ eexists. split; [done|]. repeat split; try done. apply grows_refl. }
  destruct (Hst history0 (Srv n se true) (list_elem_of_here _ _) eq_refl)
    as [(info & Hq & Hrun & Hen) _]. cbn in *.
  unfold_monad. cbn. rewrite Hq. cbn. rewrite Hrun, Hen. cbn.
  destruct se; cbn.
  - eexists. split; [done|]. cbn. repeat split; try done; [grows_done|].
    by rewrite fmap_insert.
  - match goal with |- context [client_call w ?h (service_stop n)] =>
      destruct (Hst h (Srv n false true) (list_elem_of_here _ _) eq_refl)
        as [_ [r Hr]]; cbn in Hr; rewrite Hr end.
    cbn. eexists. split; [done|]. cbn. repeat split; try done; [grows_done|].
    by rewrite fmap_insert.
Qed.

Lemma reconcile_steady w l : forall pl s,
  client s = true ->
  steady w l ->
  exists s',
    reconcile w l pl s = (Ok pl, s') /\ client s' = true /\
    init_node_status s' = init_node_status s /\
    grows loop_effect (history s) (history s') /\
    forget_last_check <$> node_status s' =
      settled l (forget_last_check <$> node_status s).
Proof.
  induction l as [|x l IH]; intros pl s Hc Hst.
  - exists s. repeat split; try done. apply grows_refl.
  - destruct (monitor_service_steady w x pl s Hc) as (s1 & E1 & Hc1 & Hi1 & Hg1 & Hn1).
    { intros h y Hy. apply Hst. apply elem_of_cons in Hy as [->|Hy].
      - apply list_elem_of_here.
      - by apply elem_of_nil in Hy. }
    destruct (IH pl s1 Hc1 (steady_tail _ _ _ Hst)) as (s' & E & Hc' & Hi' & Hg' & Hn').
    exists s'. cbn [reconcile]. unfold bind. rewrite E1.
    split; [done|]. split; [done|]. split; [congruence|].
    split; [by eapply grows_trans|].
    by rewrite Hn', Hn1, settled_cons.
Qed.

Lemma monitor_report_events_malformed w pl s :
  running_of (node_status s) = None ->
  events (history (monitor_report w pl s).2) = events (history s).
Proof.
  intros HF. destruct s. unfold monitor_report. unfold_monad. cbn in *. rewrite HF.
  by destruct (running_of init_node_status0).
Qed.

(** C5 (as amended).  Two runs of the loop over the same table, the second
    starting from the observations the first left, on a node where every
    monitored service is reported running with its enabled flag as wanted:
    both runs return their result unchanged, the observations they leave
    agree in every running and error field (each run puts its own clock
    reading in last_check), and the end of the second tick sends no event. *)
Theorem steady_runs_agree w1 w2 l pl1 pl2 s1 s2 :
  client s1 = true -> client s2 = true ->
  steady w1 l -> steady w2 l ->
  node_status s2 = node_status (reconcile w1 l pl1 s1).2 ->
  init_node_status s2 = node_status s2 ->
  is_volume_failure pl2 = false ->
  let r1 := reconcile w1 l pl1 s1 in
  let r2 := reconcile w2 l pl2 s2 in
  r1.1 = Ok pl1 /\ r2.1 = Ok pl2 /\
  forget_last_check <$> node_status r2.2 = forget_last_check <$> node_status r1.2 /\
  events (history (monitor_report w2 pl2 r2.2).2) = events (history s2).
Proof.
  intros Hc1 Hc2 Hst1 Hst2 Hn2 Hi2 Hv r1 r2. subst r1 r2.
  destruct (reconcile_steady w1 l pl1 s1 Hc1 Hst1) as (s1' & E1 & _ & _ & _ & Hf1).
  destruct (reconcile_steady w2 l pl2 s2 Hc2 Hst2) as (s2' & E2 & Hc2' & Hi2' & Hg2 & Hf2).
  rewrite E1 in Hn2 |- *. rewrite E2. cbn [fst snd] in *.
  assert (Hf : forget_last_check <$> node_status s2' =
               forget_last_check <$> node_status s1').
  { by rewrite Hf2, Hn2, Hf1, settled_idem. }
  split; [done|]. split; [done|]. split; [done|].
  assert (Hev : events (history s2') = events (history s2)).
  { apply grows_events. eapply grows_weaken; [apply loop_effect_preparing|done]. }
  destruct (running_of (node_status s2')) as [F|] eqn:EF.
  - rewrite (monitor_report_events w2 pl2 s2' F F); try done.
    + rewrite bool_decide_eq_false_2; [done|]. by intros [_ ?].
    + rewrite Hi2', Hi2, Hn2. rewrite <- EF. symmetry. by apply running_of_forget.
  - by rewrite monitor_report_events_malformed.
Qed.

Lemma example_world_steady l prior now :
  Forall (fun x => service_enable x = true) l ->
  steady (example_world l prior now all_running) l.
Proof.
  intros Hl h x Hx Hm. rewrite Forall_forall in Hl. split.
  - exists (SrvInfo 1 "RUNNING" true). cbn. by rewrite (Hl x Hx).
  - by exists RNone.
Qed.

Lemma steady_runs_agree_witness :
  let w1 := first_tick_world in
  let w2 := second_tick_world in
  let s2 := with_init_node_status first_written
              (with_node_status first_written (connected w2)) in
  let r1 := reconcile w1 [svcA] success_payload (connected w1) in
  let r2 := reconcile w2 [svcA] success_payload s2 in
  r1.1 = Ok success_payload /\ r2.1 = Ok success_payload /\
  forget_last_check <$> node_status r2.2 = forget_last_check <$> node_status r1.2 /\
  events (history (monitor_report w2 success_payload r2.2).2) = [].
Proof.
  intros w1 w2 s2.
  refine (steady_runs_agree w1 w2 [svcA] success_payload success_payload
            (connected w1) s2 eq_refl eq_refl _ _ _ eq_refl eq_refl).
  - apply example_world_steady. by repeat constructor.
  - apply example_world_steady. by repeat constructor.
  - vm_compute. reflexivity.
Defined.

(** C5 as stated fails.  The second of two ticks on a node where nothing
    changes loads what the first wrote and writes observations that differ
    from it, in last_check.  And the first tick on such a node sends a
    change event when the per-node file it loads says the service was not
    running. *)
Lemma idempotence_claim_fails :
  let r1 := monitor first_tick_world (__init__ first_tick_world) in
  let r2 := monitor second_tick_world (__init__ second_tick_world) in
  let r0 := monitor recovered_world (__init__ recovered_world) in
  r1.1 = Ok tt /\ r2.1 = Ok tt /\
  node_status r1.2 = first_written /\
  init_node_status r2.2 = first_written /\
  node_status r2.2 = {[ "svcA" := Entry (Obs true 200 None) ]} /\
  node_status r2.2 <> node_status r1.2 /\
  steady recovered_world [svcA] /\
  events (history r0.2) = [success_payload].
Proof.
  cbv zeta. split; [by vm_compute|]. split; [by vm_compute|].
  split; [by vm_compute|]. split; [by vm_compute|]. split; [by vm_compute|].
  split; [|split; [|by vm_compute]].
  - intros H. apply (f_equal (fun m => m !! "svcA")) in H.
    vm_compute in H. discriminate.
  - apply example_world_steady. by repeat constructor.
Qed.

(** * Further properties of the code *)

(** ** [check_ctdb_shared_volume] *)

(** X1.  When the check of the shared volume passes, the mount point of the
    volume under /cluster has inode 1, the path of the cluster service file
    is the volume's mount point joined with ".clustered_services", and
    neither the observations nor the service table were touched. *)
Theorem check_passes_only_when_mounted w s s' :
  check_ctdb_shared_volume w s = (Ok tt, s') ->
  exists info,
    ctdb_info s' = Some info /\
    ctdb_service_file s' = Some (path_join (mountpoint info) ".clustered_services") /\
    stat_ino w (path_join "/cluster" (volume_name info)) = Ok 1 /\
    node_status s' = node_status s /\ cl_services s' = cl_services s.
Proof.
  intros H. destruct s. unfold check_ctdb_shared_volume in H. exec.
  all: match goal with
       | Hb : bool_decide (_ <> 1) = false |- _ =>
           apply bool_decide_eq_false in Hb; apply dec_stable in Hb; subst
       end.
  all: eexists; repeat split; cbn; eauto.
Qed.

Lemma check_passes_only_when_mounted_witness :
  let w := described_by_middleware in
  exists info,
    ctdb_service_file (check_ctdb_shared_volume w (connected w)).2 =
      Some (path_join (mountpoint info) ".clustered_services") /\
    stat_ino w (path_join "/cluster" (volume_name info)) = Ok 1.
Proof.
  intros w.
  destruct (check_passes_only_when_mounted w (connected w)
              (check_ctdb_shared_volume w (connected w)).2 eq_refl)
    as (info & _ & Hf & Hi & _).
  exists info. split; [exact Hf|exact Hi].
Defined.

(** X2.  The check asks the middleware for the description of the volume
    only when the file that holds it is missing: when the file is read, no
    call is made; when reading it fails in another way, that error is
    raised and no call is made; when it is missing, exactly one call is
    made, and an error of that call is the error of the check. *)
Theorem check_asks_middleware_only_without_file w s :
  client s = true ->
  (forall info, read_vol_info w = Ok info ->
     history (check_ctdb_shared_volume w s).2 = history s) /\
  (forall e, read_vol_info w = Raise e -> exn_cls e <> FileNotFoundError ->
     check_ctdb_shared_volume w s = (Raise e, s)) /\
  (forall e, read_vol_info w = Raise e -> exn_cls e = FileNotFoundError ->
     history (check_ctdb_shared_volume w s).2 =
       Called ctdb_shared_volume_config :: history s /\
     forall e', client_call w (history s) ctdb_shared_volume_config = Raise e' ->
                (check_ctdb_shared_volume w s).1 = Raise e').
Proof.
  intros Hc. destruct s. cbn in Hc. subst. split; [|split].
  - intros info Hr. unfold check_ctdb_shared_volume. unfold_monad. rewrite Hr. cbn.
    destruct (stat_ino w _); cbn; [|done]. by destruct (bool_decide _).
  - intros e Hr Hcls. unfold check_ctdb_shared_volume. unfold_monad. rewrite Hr. cbn.
    by destruct (exn_cls e).
  - intros e Hr Hcls. unfold check_ctdb_shared_volume. unfold_monad.
    rewrite Hr. cbn. rewrite Hcls. cbn. split.
    + destruct (client_call w history0 ctdb_shared_volume_config) as [[]|]; cbn; try done.
      destruct (stat_ino w _); cbn; [|done]. by destruct (bool_decide _).
    + by intros e' ->.
Qed.

Lemma check_asks_middleware_only_without_file_witness :
  let w := described_by_middleware in
  history (check_ctdb_shared_volume w (connected w)).2 =
    [Called ctdb_shared_volume_config] /\
  history (check_ctdb_shared_volume first_tick_world (connected first_tick_world)).2 = [].
Proof.
  intros w. split.
  - destruct (check_asks_middleware_only_without_file w (connected w) eq_refl)
      as (_ & _ & H).
    exact (proj1 (H no_file eq_refl eq_refl)).
  - destruct (check_asks_middleware_only_without_file first_tick_world
                (connected first_tick_world) eq_refl) as (H & _ & _).
    exact (H _ eq_refl).
Defined.

(** ** [load_service_file] *)



(** X4.  When the cluster service file is read and the per-node file is
    read, missing, or not JSON, [load_service_file] returns with the table
    read and with the observations read, or none if the per-node file was
    missing or not JSON; nothing is logged. *)
Theorem load_reads_both_files w s n f l :
  ctdb_pnn w = Ok n -> ctdb_service_file s = Some f ->
  read_service_file w f = Ok l ->
  match read_node_file w f n with
  | Ok _ => True
  | Raise e => exn_cls e = FileNotFoundError \/ exn_cls e = JSONDecodeError
  end ->
  exists s',
    load_service_file w s = (Ok tt, s') /\
    cl_services s' = Some l /\
    node_status s' = match read_node_file w f n with Ok m => m | Raise _ => ∅ end /\
    history s' = history s.
Proof.
  intros Hp Hf Hl Hn. destruct s. cbn in Hf. subst.
  unfold load_service_file. unfold_monad. rewrite Hp. cbn. rewrite Hl. cbn.
  destruct (read_node_file w f n) as [m|e]; cbn; [by eexists|].
  destruct Hn as [-> | ->]; cbn; by eexists.
Qed.

Lemma load_reads_both_files_witness :
  let w := described_by_middleware in
  let s := (check_ctdb_shared_volume w (connected w)).2 in
  exists s',
    load_service_file w s = (Ok tt, s') /\
    cl_services s' = Some [svcA] /\ node_status s' = ∅.
Proof.
  intros w s.
  destruct (load_reads_both_files w s 3 "/cluster/vol0/.clustered_services" [svcA]
              eq_refl eq_refl eq_refl (or_intror eq_refl))
    as (s' & Hl & Hc & Hn & _).
  exists s'. split; [exact Hl|]. split; [exact Hc|exact Hn].
Defined.



(** ** The loop of [monitor] *)

Lemma monitor_service_queries w x pl s pl' s' :
  monitor_service w x pl s = (Ok pl', s') ->
  queries (history s') =
  ((if monitor_enable x then [srv_name x] else []) ++ queries (history s))%list.
Proof.
  intros H. destruct s, x as [n [] []]. all: unfold monitor_service in H; exec; done.
Qed.

(** X6.  When the loop returns, it has asked the middleware for the state of
    each monitored service of the table once, in the order of the table, and
    of no other service. *)
Theorem one_query_per_monitored_service w l : forall pl s pl' s',
  reconcile w l pl s = (Ok pl', s') ->
  queries (history s') =
  (rev (map srv_name (List.filter monitor_enable l)) ++ queries (history s))%list.
Proof.
  induction l as [|x l IH]; intros pl s pl' s' H.
  - cbn in H. unfold ret in H. by simplify_eq.
  - cbn [reconcile] in H. unfold bind in H.
    destruct (monitor_service w x pl s) as [[pl1|e1] s1] eqn:E1; [|done].
    rewrite (IH _ _ _ _ H), (monitor_service_queries _ _ _ _ _ _ E1).
    cbn [List.filter]. destruct (monitor_enable x); cbn; [|done].
    by rewrite <- app_assoc.
Qed.

Lemma one_query_per_monitored_service_witness :
  let w := example_world [svcA; Srv "svcC" true false; svcB] (Raise no_file) 100 all_running in
  queries (history (reconcile w [svcA; Srv "svcC" true false; svcB]
                      success_payload (connected w)).2) = ["svcB"; "svcA"].
Proof.
  intros w.
  exact (one_query_per_monitored_service w [svcA; Srv "svcC" true false; svcB]
           success_payload (connected w) success_payload _ eq_refl).
Defined.

(** X7.  A turn of the loop acts only towards the wanted state: for a
    service that is wanted it never asks for a stop and never switches the
    enabled flag off; for a service that is not wanted it never asks for a
    start and never switches the flag on; however the turn ends. *)
Theorem turn_moves_towards_wanted_state w x pl s e :
  e ∈ history (monitor_service w x pl s).2 ->
  e ∈ history s \/ moves_towards (service_enable x) e = true.
Proof.
  assert (Hg : grows (moves_towards (service_enable x)) (history s)
                 (history (monitor_service w x pl s).2)).
  { destruct (monitor_service w x pl s) as [r s'] eqn:H.
    destruct s, x as [n [] []]. all: unfold monitor_service in H; exec; grows_done. }
  induction Hg as [|e0 h' He0 _ IH]; [by left|].
  intros [->|Hin]%elem_of_cons; [by right|auto].
Qed.

Lemma turn_moves_towards_wanted_state_witness :
  let w := stopping_world in
  let x := Srv "svcA" false true in
  Called (service_stop "svcA") ∈ history (monitor_service w x success_payload (connected w)).2 /\
  Forall (fun e => moves_towards false e = true)
    (history (monitor_service w x success_payload (connected w)).2).
Proof.
  intros w x. split; [vm_compute; apply list_elem_of_here|].
  apply Forall_forall. intros e He.
  destruct (turn_moves_towards_wanted_state w x success_payload (connected w) e He)
    as [H|H]; [|exact H].
  exfalso. vm_compute in H. by apply elem_of_nil in H.
Defined.

(** X8.  When the state the middleware reports is the wanted one (running
    with the flag on for a wanted service; not running with the flag off for
    one that is not wanted), the turn makes no call but the query, records
    {running: wanted, error: None} and leaves the result as it was. *)
Theorem no_action_when_as_wanted w x pl s info :
  client s = true -> monitor_enable x = true ->
  client_call w (history s) (service_query (srv_name x)) = Ok (RSrvInfo info) ->
  srvinfo_enable info = service_enable x ->
  (srvinfo_state info = "RUNNING" <-> service_enable x = true) ->
  let h1 := Called (service_query (srv_name x)) :: history s in
  exists s',
    monitor_service w x pl s = (Ok pl, s') /\
    history s' = h1 /\
    node_status s' =
      <[srv_name x := Entry (Obs (service_enable x) (clock_gettime w h1) None)]>
        (node_status s).
Proof.
  intros Hc Hm Hq Hen Hst h1. subst h1.
  destruct s, x as [n se me]. cbn in *. subst.
  unfold monitor_service. unfold_monad. cbn. rewrite Hq. cbn.
  destruct (srvinfo_enable info); cbn.
  - rewrite (proj2 (String.eqb_eq _ _) (proj2 Hst eq_refl)). cbn. by eexists.
  - destruct (String.eqb (srvinfo_state info) "RUNNING") eqn:E; cbn; [|by eexists].
    apply String.eqb_eq in E. by apply Hst in E.
Qed.

Lemma no_action_when_as_wanted_witness :
  let w := first_tick_world in
  exists s',
    monitor_service w svcA success_payload (connected w) = (Ok success_payload, s') /\
    history s' = [Called (service_query "svcA")].
Proof.
  intros w.
  destruct (no_action_when_as_wanted w svcA success_payload (connected w)
              (SrvInfo 1 "RUNNING" true) eq_refl eq_refl eq_refl eq_refl
              (conj (fun _ => eq_refl) (fun _ => eq_refl)))
    as (s' & Hm & Hh & _).
  exists s'. split; [exact Hm|exact Hh].
Defined.

(** X9.  After a start that raised, the turn still switches the enabled
    flag on when it is off; and when that update raises, its error leaves the
    loop: no observation is recorded for the service, and the failure of the
    start is in no result. *)
Theorem flag_switched_on_after_failed_start w x pl s info e :
  client s = true -> monitor_enable x = true -> service_enable x = true ->
  let n := srv_name x in
  let h2 := Logged WARNING (not_running_message n)
              :: Called (service_query n) :: history s in
  let h3 := Logged WARNING (failed_start_message n) :: Called (service_start n) :: h2 in
  client_call w (history s) (service_query n) = Ok (RSrvInfo info) ->
  srvinfo_state info <> "RUNNING" ->
  client_call w h2 (service_start n) = Raise e ->
  srvinfo_enable info = false ->
  let r := monitor_service w x pl s in
  history r.2 = Called (service_update (srvinfo_id info) true) :: h3 /\
  forall e', client_call w h3 (service_update (srvinfo_id info) true) = Raise e' ->
             r.1 = Raise e' /\ node_status r.2 = node_status s.
Proof.
  intros Hc Hm He n h2 h3 Hq Hst Hstart Hen r. subst r n h2 h3.
  destruct s, x as [n0 se me]. cbn in *. subst.
  unfold monitor_service. unfold_monad. cbn.
  rewrite Hq. cbn. rewrite (eqb_RUNNING_false _ Hst). cbn.
  rewrite Hstart. cbn. rewrite Hen. cbn.
  destruct (client_call w _ (service_update _ true)) eqn:E; cbn.
  - split; [done|]. intros e' ?. congruence.
  - split; [done|]. intros e' ?. by simplify_eq.
Qed.

Lemma flag_switched_on_after_failed_start_witness :
  let answer r :=
    match r with
    | service_query _ => Ok (RSrvInfo (SrvInfo 7 "STOPPED" false))
    | service_start _ => Raise (Exn CallError "port in use")
    | service_update _ _ => Raise (Exn CallError "timed out")
    | _ => Ok RNone
    end in
  let w := example_world [svcA] (Raise no_file) 100 answer in
  let r := monitor_service w svcA success_payload (connected w) in
  Called (service_update 7 true) ∈ history r.2 /\
  r.1 = Raise (Exn CallError "timed out") /\ node_status r.2 = ∅.
Proof.
  intros answer w r.
  destruct (flag_switched_on_after_failed_start w svcA success_payload (connected w)
              (SrvInfo 7 "STOPPED" false) (Exn CallError "port in use")
              eq_refl eq_refl eq_refl eq_refl ltac:(discriminate) eq_refl eq_refl)
    as [Hh He].
  split.
  - fold r in Hh. rewrite Hh. apply list_elem_of_here.
  - exact (He _ eq_refl).
Defined.

Lemma reconcile_offender w l : forall pl s pl' s',
  reconcile w l pl s = (Ok pl', s') ->
  pl' = pl \/
  exists x msg, x ∈ l /\ monitor_enable x = true /\ service_enable x = true /\
                pl' = start_failure (srv_name x) msg.
Proof.
  induction l as [|x l IH]; intros pl s pl' s' H.
  - cbn in H. unfold ret in H. simplify_eq. by left.
  - cbn [reconcile] in H. unfold bind in H.
    destruct (monitor_service w x pl s) as [[pl1|e1] s1] eqn:E1; [|done].
    destruct (IH _ _ _ _ H) as [->|(y & msg & Hy & ? & ? & ->)].
    + apply monitor_service_spec in E1 as (_ & _ & [[_ [[? _]|[? ?]]]|Hw]);
        [left; congruence|done|].
      destruct Hw as (o & pl2 & Hm & Heq & _ & _ & Hkeep & [->|(msg & -> & Herr)]);
        simplify_eq; [by left|].
      right. exists x, msg. split; [apply list_elem_of_here|].
      split; [done|]. split; [|done].
      destruct (service_enable x) eqn:Ese; [done|].
      destruct (Hkeep (or_intror eq_refl)) as [Hnone _]. congruence.
    + right. exists y, msg. split; [by apply list_elem_of_further|done].
Qed.

(** X10.  The loop changes the result of the tick only to a FAILURE that
    names a service of the table that is monitored and wanted; a result
    that is a FAILURE when the loop starts is a FAILURE when it returns. *)
Theorem result_changes_only_to_start_failure w l pl s pl' s' :
  reconcile w l pl s = (Ok pl', s') ->
  (pl' = pl \/
   exists x, x ∈ l /\ monitor_enable x = true /\ service_enable x = true /\
             p_status pl' = FAILURE /\ p_service pl' = Some (srv_name x) /\
             p_event pl' = MONITOR) /\
  (is_failure pl = true -> is_failure pl' = true).
Proof.
  intros H. destruct (reconcile_offender _ _ _ _ _ _ H)
    as [->|(x & msg & Hx & Hm & He & ->)].
  - split; [by left|done].
  - split; [|done]. right. by exists x.
Qed.

Lemma result_changes_only_to_start_failure_witness :
  let w := example_world [svcA] (Raise no_file) 100 port_in_use in
  let r := reconcile w [svcA] success_payload (connected w) in
  exists pl' x,
    r.1 = Ok pl' /\ x ∈ [svcA] /\
    p_status pl' = FAILURE /\ p_service pl' = Some (srv_name x).
Proof.
  intros w r.
  assert (E : reconcile w [svcA] success_payload (connected w) =
              (Ok (start_failure "svcA" "port in use"), r.2))
    by (vm_compute; reflexivity).
  destruct (result_changes_only_to_start_failure w [svcA] success_payload
              (connected w) _ _ E) as [[Hp|(x & Hx & _ & _ & Hf & Hs & _)] _].
  - discriminate Hp.
  - exists (start_failure "svcA" "port in use"), x.
    split; [subst r; by rewrite E|]. split; [exact Hx|]. split; [exact Hf|exact Hs].
Defined.

(** X11.  The loop removes no observation: a name that has an entry before
    the loop has one after it, however the loop ends; and a name that has
    one after it had one before or is the name of a monitored service of the
    table. *)
Theorem observations_never_removed w l pl s k :
  let s' := (reconcile w l pl s).2 in
  (is_Some (node_status s !! k) -> is_Some (node_status s' !! k)) /\
  (is_Some (node_status s' !! k) ->
   is_Some (node_status s !! k) \/ monitored_name l k).
Proof.
  cbv zeta. destruct (reconcile w l pl s) as [r s'] eqn:E.
  apply reconcile_spec in E as (_ & _ & Hns & _). cbn.
  destruct (Hns k) as [->|(x & o & Hx & Hm & Hn & -> & _)].
  - split; [done|by left].
  - split; [by eexists|]. intros _. right. by exists x.
Qed.

(** ** The whole tick *)

Lemma monitor_reconcile_cases w s r s' :
  monitor_reconcile w s = (r, s') ->
  (exists e, check_ctdb_shared_volume w s = (Raise e, s') /\
             r = Ok (volume_failure (exn_str e))) \/
  (exists s1 r2 s2,
      check_ctdb_shared_volume w s = (Ok tt, s1) /\
      load_service_file w s1 = (r2, s2) /\
      ((exists e, r2 = Raise e /\ exn_cls e <> RuntimeError /\ r = Raise e /\ s' = s2) \/
       (exists pl0,
           (r2 = Ok tt \/ exists e, r2 = Raise e /\ exn_cls e = RuntimeError) /\
           (do l <- get_cl_services; reconcile w l pl0)
             (with_init_node_status (node_status s2) s2) = (r, s')))).
Proof.
  intros H.
  destruct (check_ctdb_shared_volume w s) as [[[]|e] s1] eqn:E1.
  - right. destruct (load_service_file w s1) as [[[]|e] s2] eqn:E2.
    + exists s1, (Ok tt), s2. split; [done|]. split; [done|]. right.
      exists success_payload. split; [by left|].
      by rewrite <- (monitor_reconcile_loaded _ _ _ _ E1 E2).
    + exists s1, (Raise e), s2. split; [done|]. split; [done|].
      destruct (exn_cls e) eqn:Hc.
      4:{ right. exists (volume_failure (exn_str e)). split; [right; by exists e|].
          by rewrite <- (monitor_reconcile_load_failed _ _ _ _ _ E1 E2 Hc). }
      all: left; exists e; split; [done|]; split; [by rewrite Hc|].
      all: unfold monitor_reconcile in H; unfold_monad; rewrite E1 in H; cbn in H.
      all: rewrite E2 in H; cbn in H; rewrite Hc in H; by simplify_eq.
  - left. exists e. rewrite (monitor_reconcile_check_failed _ _ _ _ E1) in H.
    by simplify_eq.
Qed.

Lemma loop_after_load w s2 pl0 r s' :
  (do l <- get_cl_services; reconcile w l pl0)
    (with_init_node_status (node_status s2) s2) = (r, s') ->
  grows loop_effect (history s2) (history s') /\
  ctdb_service_file s' = ctdb_service_file s2 /\
  (forall pl, r = Ok pl -> is_volume_failure pl = true ->
              is_volume_failure pl0 = true \/
              exists l, cl_services s2 = Some l /\ monitored_name l "ctdb_shared_volume").
Proof.
  intros H. unfold bind, get_cl_services, get in H. cbn in H.
  destruct (cl_services s2) as [l|] eqn:El; cbn in H.
  - pose proof (reconcile_spec _ _ _ _ _ _ H) as ((_ & _ & _ & _ & _ & _ & Hf) & Hg & _ & Hpl).
    destruct s2; cbn in *. split; [done|]. split; [done|].
    intros pl -> Hv. destruct (Hpl pl eq_refl) as [->|(x & msg & Hx & Hm & ->)]; [by left|].
    right. exists l. split; [done|]. exists x. split; [done|]. split; [done|].
    unfold is_volume_failure in Hv. cbn in Hv. by case_bool_decide; simplify_eq.
  - unfold raise in H. simplify_eq. destruct s2; cbn. split; [apply grows_refl|].
    split; [done|]. by intros.
Qed.

Lemma monitor_reconcile_effects w s r s' :
  monitor_reconcile w s = (r, s') ->
  grows tick_effect (history s) (history s') /\
  (forall pl, r = Ok pl -> is_volume_failure pl = false ->
              is_Some (ctdb_service_file s')).
Proof.
  intros H.
  destruct (monitor_reconcile_cases _ _ _ _ H)
    as [(e & E1 & ->)|(s1 & r2 & s2 & E1 & E2 & Hrest)].
  - pose proof (check_spec _ _ _ _ E1) as (_ & _ & _ & _ & _ & Hg1 & _).
    split; [|intros pl [= <-] Hv; by vm_compute in Hv].
    eapply grows_weaken; [|exact Hg1]. by intros [[]| | |].
  - pose proof (check_spec _ _ _ _ E1) as (_ & _ & _ & _ & _ & Hg1 & Hf1).
    pose proof (load_spec _ _ _ _ E2) as (_ & _ & Hf2 & Hg2 & _ & _).
    apply (grows_weaken _ tick_effect) in Hg1; [|by intros [[]| | |]].
    apply (grows_weaken _ tick_effect) in Hg2; [|by intros [[]| | |]].
    destruct Hrest as [(e & -> & _ & -> & ->)|(pl0 & _ & Hl)].
    + split; [eauto using grows_trans|done].
    + apply loop_after_load in Hl as (Hg3 & Hf3 & _).
      apply (grows_weaken _ tick_effect) in Hg3; [|by intros [[]| | |]].
      split; [eauto using grows_trans|].
      intros pl _ _. rewrite Hf3, Hf2. by apply Hf1.
Qed.

Lemma monitor_report_ok w pl s s' :
  monitor_report w pl s = (Ok tt, s') ->
  exists h,
    history s' = Wrote (default "None" (ctdb_service_file s)) (pnn s) (node_status s) :: h /\
    grows not_write (history s) h /\
    pnn s' = pnn s /\ node_status s' = node_status s /\
    ctdb_service_file s' = ctdb_service_file s /\
    is_volume_failure pl = false.
Proof.
  intros H. destruct s. unfold monitor_report in H. exec.
  all: eexists; split; [reflexivity|]; split; [grows_done|done].
Qed.

Lemma monitor_report_effects w pl s :
  grows tick_effect (history s) (history (monitor_report w pl s).2).
Proof. destruct s. unfold monitor_report. exec; grows_done. Qed.

(** X12.  A tick that returns, the client having been set up, has written
    the per-node file once, as the last thing it did: to the file named by
    the cluster service file and the node number, and holding the
    observations the object has at the end. *)
Theorem tick_writes_once_at_its_end w s' :
  ready w ->
  monitor w (__init__ w) = (Ok tt, s') ->
  exists f h,
    history s' = Wrote f (pnn s') (node_status s') :: h /\
    ctdb_service_file s' = Some f /\
    Forall (fun e => is_write e = false) h.
Proof.
  intros Hr H. rewrite (monitor_ready w Hr) in H. unfold bind in H.
  destruct (monitor_reconcile w (connected w)) as [[pl|e] s1] eqn:E1; [|done].
  pose proof (monitor_reconcile_spec _ _ _ _ E1) as (_ & Hg & _).
  pose proof (monitor_reconcile_effects _ _ _ _ E1) as (_ & Hf).
  apply monitor_report_ok in H as (h & Hh & Hgh & -> & -> & -> & Hv).
  destruct (Hf pl eq_refl Hv) as [f Hsome]. rewrite Hsome in Hh |- *.
  exists f, h. split; [done|]. split; [done|].
  apply (grows_no_write [] (history s1)) in Hg; [|constructor].
  clear Hh. induction Hgh as [|e2 h' He2 _ IH]; [done|].
  constructor; [|done]. unfold not_write in He2. by destruct (is_write e2).
Qed.

Lemma tick_writes_once_at_its_end_witness :
  let w := first_tick_world in
  exists s' f h,
    monitor w (__init__ w) = (Ok tt, s') /\
    history s' = Wrote f 0 first_written :: h /\
    Forall (fun e => is_write e = false) h.
Proof.
  intros w.
  assert (E : monitor w (__init__ w) = (Ok tt, (monitor w (__init__ w)).2))
    by (vm_compute; reflexivity).
  destruct (tick_writes_once_at_its_end w _ (example_world_ready _ _ _ _ _ _) E)
    as (f & h & Hh & _ & Hw).
  exists (monitor w (__init__ w)).2, f, h. split; [exact E|]. split; [|exact Hw].
  rewrite Hh. f_equal.
Defined.

(** X13.  A tick never asks for the restart of a service and never pings
    the middleware, whatever the world and however it ends. *)
Theorem tick_never_restarts w :
  Forall (fun e => tick_effect e = true) (history (monitor w (__init__ w)).2) /\
  forall n, Called (service_restart n) ∉ history (monitor w (__init__ w)).2.
Proof.
  assert (H : Forall (fun e => tick_effect e = true)
                (history (monitor w (__init__ w)).2)).
  { rewrite monitor_unfold.
    destruct (init_client w (__init__ w)) as [[[]|e] s0] eqn:E0.
    - apply init_client_true in E0 as ->.
      destruct (monitor_reconcile w (connected w)) as [[pl|e] s1] eqn:E1;
        pose proof (monitor_reconcile_effects _ _ _ _ E1) as (Hg & _).
      + eapply grows_Forall; [|constructor].
        eapply grows_trans; [exact Hg|apply monitor_report_effects].
      + by eapply grows_Forall; [exact Hg|constructor].
    - apply init_client_false in E0 as (_ & _ & Hl). unfold_monad. cbn.
      constructor; [done|]. eapply Forall_impl; [exact Hl|]. by intros [[]| | |].
    - by apply init_client_no_raise in E0. }
  split; [done|]. intros n Hn. rewrite Forall_forall in H. by apply H in Hn.
Qed.

Lemma running_of_unusable (d : gmap string node_entry) k v e :
  d !! k = Some v -> unusable_error v = Some e -> running_of d = None.
Proof.
  intros Hk Hv. destruct (running_of d) as [m|] eqn:E; [|done].
  apply running_of_Some in E as [Hall _].
  destruct (Hall k _ Hk) as [b Hb]. by destruct v.
Qed.

Lemma first_unusable_found (d : gmap string node_entry) keys : forall k v e,
  k ∈ keys -> d !! k = Some v -> unusable_error v = Some e ->
  exists k' v' e',
    d !! k' = Some v' /\ unusable_error v' = Some e' /\
    first_unusable d keys = Some e'.
Proof.
  induction keys as [|k0 keys IH]; intros k v e Hin Hk Hv.
  - by apply elem_of_nil in Hin.
  - cbn [first_unusable]. destruct (d !! k0 ≫= unusable_error) as [e0|] eqn:E0.
    + apply bind_Some in E0 as (v0 & Hk0 & Hv0). by exists k0, v0, e0.
    + apply elem_of_cons in Hin as [->|Hin]; [|by eapply IH].
      rewrite Hk in E0. cbn in E0. congruence.
Qed.

Lemma first_unusable_first (d : gmap string node_entry) k v e after : forall before,
  d !! k = Some v -> unusable_error v = Some e ->
  (forall k0 v0, k0 ∈ before -> d !! k0 = Some v0 -> unusable_error v0 = None) ->
  first_unusable d (before ++ k :: after) = Some e.
Proof.
  induction before as [|k0 before IH]; intros Hk Hv Hb; cbn [first_unusable app].
  - rewrite Hk. cbn. by rewrite Hv.
  - destruct (d !! k0) as [v0|] eqn:E0; cbn.
    + rewrite (Hb k0 v0 (list_elem_of_here _ _) E0).
      apply IH; [done|done|]. intros k1 v1 Hin. apply Hb. by apply list_elem_of_further.
    + apply IH; [done|done|]. intros k1 v1 Hin. apply Hb. by apply list_elem_of_further.
Qed.

Lemma monitor_report_unusable w pl s :
  running_of (node_status s) = None ->
  let r := monitor_report w pl s in
  r.1 = Raise (default (Exn KeyError "'running'")
                 (first_unusable (node_status s) (node_status_keys s))) /\
  events (history r.2) = events (history s) /\
  grows is_log (history s) (history r.2).
Proof.
  intros Hk r. subst r.
  destruct s. unfold monitor_report. unfold_monad. cbn in *. rewrite Hk.
  destruct (running_of init_node_status0); cbn; repeat split; grows_done.
Qed.

(** X14.  An entry on which [v['running']] raises and that the observations
    still hold when the loop is over makes the end of the tick raise, with
    the error of such an entry: [KeyError] for a dict without the member,
    [TypeError] for a value that is no dict; it is the error of the first
    such entry in the order of the dict.  No event is sent and the per-node
    file is not opened.  (Such an entry in the copy taken before the loop
    only costs the change event: its error is caught and logged.) *)
Theorem malformed_entry_fails_the_tick w pl s k v e :
  node_status s !! k = Some v -> unusable_error v = Some e ->
  let r := monitor_report w pl s in
  (exists k' v' e',
      node_status s !! k' = Some v' /\ unusable_error v' = Some e' /\
      r.1 = Raise e' /\
      match v' with
      | NoRunning => e' = Exn KeyError "'running'"
      | NotADict msg => e' = Exn TypeError msg
      | Entry _ => False
      end) /\
  (forall before after,
      node_order s = (before ++ k :: after)%list ->
      (forall k0 v0, k0 ∈ before -> node_status s !! k0 = Some v0 ->
                     unusable_error v0 = None) ->
      r.1 = Raise e) /\
  events (history r.2) = events (history s) /\
  grows is_log (history s) (history r.2).
Proof.
  intros Hk Hv r. subst r.
  destruct (monitor_report_unusable w pl s (running_of_unusable _ _ _ _ Hk Hv))
    as (Hr & He & Hg).
  split; [|split; [|done]].
  - destruct (first_unusable_found (node_status s) (node_status_keys s) k v e)
      as (k' & v' & e' & Hk' & Hv' & Hf); [|done|done|].
    + unfold node_status_keys. apply elem_of_app. right.
      apply list_elem_of_fmap. exists (k, v). split; [done|].
      by apply elem_of_map_to_list.
    + exists k', v', e'. rewrite Hr, Hf. split; [done|]. split; [done|].
      split; [done|]. destruct v'; cbn in Hv'; by simplify_eq.
  - intros before after Ho Hb. rewrite Hr. unfold node_status_keys.
    rewrite Ho, <- app_assoc. cbn [app].
    by rewrite (first_unusable_first _ k v e _ before Hk Hv Hb).
Qed.

Lemma malformed_entry_fails_the_tick_witness :
  let w := stale_malformed_world in
  let r := monitor w (__init__ w) in
  r.1 = Raise (Exn TypeError not_subscriptable) /\
  Forall (fun e => is_write e = false) (history r.2).
Proof.
  intros w r.
  assert (E1 : monitor_reconcile w (connected w) =
               (Ok success_payload, (monitor_reconcile w (connected w)).2))
    by (vm_compute; reflexivity).
  assert (Hm : monitor w (__init__ w) =
               monitor_report w success_payload (monitor_reconcile w (connected w)).2).
  { rewrite (monitor_ready w (example_world_ready _ _ _ _ _ _)).
    unfold bind. revert E1.
    generalize (monitor_reconcile w (connected w)). intros [r1 s1] E.
    injection E as ->. reflexivity. }
  assert (Hk : node_status (monitor_reconcile w (connected w)).2 !! "gone" =
               Some (NotADict not_subscriptable))
    by (vm_compute; reflexivity).
  assert (Ho : node_order (monitor_reconcile w (connected w)).2 =
               ([] ++ "gone" :: ["svcA"])%list)
    by (vm_compute; reflexivity).
  destruct (malformed_entry_fails_the_tick w success_payload
              (monitor_reconcile w (connected w)).2 "gone" _ _ Hk eq_refl)
    as (_ & Hr & _ & _).
  subst r. rewrite Hm. split.
  - apply (Hr [] ["svcA"] Ho). intros k0 v0 Hin.
    destruct (proj1 (elem_of_nil k0) Hin).
  - vm_compute. repeat constructor.
Defined.

(** X15.  When the per-node file cannot be opened for writing, the end of
    the tick does not return and writes nothing; it raises the error of the
    open unless the change event, sent before, raised. *)
Theorem unwritable_file_fails_the_tick w pl s e :
  client s = true -> is_volume_failure pl = false ->
  open_node_file w (default "None" (ctdb_service_file s)) (pnn s) = Some e ->
  is_Some (running_of (node_status s)) ->
  let r := monitor_report w pl s in
  grows not_write (history s) (history r.2) /\
  (r.1 = Raise e \/
   exists e', r.1 = Raise e' /\
              client_call w (history s) (ctdb_event_process pl) = Raise e').
Proof.
  intros Hc Hv Ho [F HF] r. subst r.
  destruct s. unfold monitor_report. unfold_monad. cbn in *. subst.
  rewrite HF, Hv.
  destruct (running_of init_node_status0) as [I|]; cbn;
    [destruct (bool_decide (I <> ∅) && bool_decide (I <> F)); cbn;
     [destruct (client_call w history0 (ctdb_event_process pl)) eqn:E; cbn|]
    |rewrite (bool_decide_eq_false_2 (∅ <> ∅)) by (intros H; by apply H); cbn].
  all: rewrite ?Hv; cbn; rewrite ?Ho; cbn.
  all: split; [grows_done|].
  all: first [by left | right; by eexists].
Qed.

Lemma unwritable_file_fails_the_tick_witness :
  let w := read_only_world in
  let s := (monitor_reconcile w (connected w)).2 in
  (monitor_report w success_payload s).1 =
    Raise (Exn (OSError 30) "Read-only file system").
Proof.
  intros w s.
  destruct (unwritable_file_fails_the_tick w success_payload s
              (Exn (OSError 30) "Read-only file system") eq_refl eq_refl eq_refl)
    as [_ [H|(e' & _ & H)]].
  - eexists. vm_compute. reflexivity.
  - exact H.
  - vm_compute in H. discriminate H.
Defined.



(** ** More on [startup] and [init] *)

Lemma for_each_restart_in w l : forall s,
  client s = true ->
  (forall h y, y ∈ l -> exists r, client_call w h (service_restart (srv_name y)) = Ok r) ->
  for_each (startup_restart w) l s =
  (Ok tt, with_history (rev (restarted l) ++ history s) s).
Proof.
  induction l as [|x l IH]; intros s Hc Hok.
  - destruct s. by cbn.
  - cbn [for_each]. unfold bind at 1. unfold startup_restart at 1.
    unfold restarted. cbn [List.filter].
    destruct (monitor_enable x && service_enable x) eqn:E.
    + unfold_monad. rewrite Hc.
      destruct (Hok (history s) x (list_elem_of_here _ _)) as [r Hr]. rewrite Hr. cbn.
      rewrite IH; [|done|intros h y Hy; apply Hok; by apply list_elem_of_further].
      destruct s. cbn in *. subst. unfold restarted.
      by rewrite <- app_assoc.
    + unfold ret at 1. rewrite IH; [done..|].
      intros h y Hy. apply Hok. by apply list_elem_of_further.
Qed.

Lemma for_each_cons {A} (body : A -> M unit) x l s :
  for_each body (x :: l) s =
  match body x s with
  | (Ok _, s1) => for_each body l s1
  | (Raise e, s1) => (Raise e, s1)
  end.
Proof. done. Qed.

Lemma startup_restart_effects w x s :
  grows startup_effect (history s) (history (startup_restart w x s).2) /\
  client (startup_restart w x s).2 = client s.
Proof.
  destruct s. unfold startup_restart. unfold_monad. cbn.
  destruct (monitor_enable x && service_enable x); cbn; [|split; [grows_done|done]].
  destruct client0; cbn; [|split; [grows_done|done]].
  destruct (client_call w _ _); cbn; (split; [grows_done|done]).
Qed.

Lemma for_each_restart_effects w l : forall s,
  grows startup_effect (history s) (history (for_each (startup_restart w) l s).2) /\
  client (for_each (startup_restart w) l s).2 = client s.
Proof.
  induction l as [|x l IH]; intros s.
  - split; [apply grows_refl|done].
  - rewrite for_each_cons.
    destruct (startup_restart_effects w x s) as [Hg1 Hc1].
    destruct (startup_restart w x s) as [[[]|e] s1]; cbn in Hg1, Hc1; [|done].
    destruct (IH s1) as [Hg Hc]. split; [by eapply grows_trans|congruence].
Qed.

(** X16.  On STARTUP, when the volume is mounted and the cluster service
    file exists but [load_service_file] raises, that error is raised to the
    caller as it is: no service is restarted and no status is reported,
    neither SUCCESS nor FAILURE. *)
Theorem startup_load_error_unreported w s1 f e s2 :
  ready w ->
  check_ctdb_shared_volume w (connected w) = (Ok tt, s1) ->
  ctdb_service_file s1 = Some f -> path_exists w f = true ->
  load_service_file w s1 = (Raise e, s2) ->
  startup w (__init__ w) = (Raise e, s2) /\
  events (history s2) = [] /\
  Forall (fun e => touches_service e = false) (history s2).
Proof.
  intros Hr E1 Hf Hp E2.
  rewrite (startup_unfold w Hr), E1, Hf. cbn. rewrite Hp. cbn.
  unfold bind at 1. rewrite E2. split; [done|].
  pose proof (check_spec _ _ _ _ E1) as (_ & _ & _ & _ & _ & Hg1 & _).
  pose proof (load_spec _ _ _ _ E2) as (_ & _ & _ & Hg2 & _ & _).
  assert (Hg : grows (fun e => volume_effect e || is_log e) [] (history s2)).
  { eapply grows_trans.
    - eapply grows_weaken; [|exact Hg1]. by intros [[]| | |].
    - eapply grows_weaken; [|exact Hg2]. by intros [[]| | |]. }
  split.
  - rewrite (grows_events [] (history s2)); [done|].
    eapply grows_weaken; [|exact Hg]. by intros [[]| | |].
  - eapply Forall_impl; [eapply grows_Forall; [exact Hg|constructor]|].
    by intros [[]| | |].
Qed.

Lemma startup_load_error_unreported_witness :
  let w := disconnected_world in
  (startup w (__init__ w)).1 = Raise (Exn RuntimeError ENOTCONN_message) /\
  events (history (startup w (__init__ w)).2) = [].
Proof.
  intros w.
  destruct (startup_load_error_unreported w _ _ _ _
              (example_world_ready _ _ _ _ _ _) eq_refl eq_refl eq_refl eq_refl)
    as (Hs & He & _).
  rewrite Hs. split; [reflexivity|exact He].
Defined.

(** X17.  On STARTUP, a restart that raises ends the hook with that error:
    the services before it in the table were restarted, those after it are
    not, and no status is reported. *)
Theorem startup_stops_at_failed_restart w s1 f s2 (l1 : list srv) x l2 e :
  ready w ->
  check_ctdb_shared_volume w (connected w) = (Ok tt, s1) ->
  ctdb_service_file s1 = Some f -> path_exists w f = true ->
  load_service_file w s1 = (Ok tt, s2) ->
  cl_services s2 = Some (l1 ++ x :: l2)%list ->
  monitor_enable x = true -> service_enable x = true ->
  (forall h y, y ∈ l1 -> exists r, client_call w h (service_restart (srv_name y)) = Ok r) ->
  client_call w (rev (restarted l1) ++ history s2)%list
    (service_restart (srv_name x)) = Raise e ->
  exists s',
    startup w (__init__ w) = (Raise e, s') /\
    history s' =
      (Called (service_restart (srv_name x)) :: rev (restarted l1) ++ history s2)%list /\
    events (history s') = [].
Proof.
  intros Hr E1 Hf Hp E2 Hl Hm Hen Hok Hfail.
  rewrite (startup_unfold w Hr), E1, Hf. cbn. rewrite Hp. cbn.
  pose proof (check_spec _ _ _ _ E1) as (Hc1 & _ & _ & _ & _ & Hg1 & _).
  pose proof (load_spec _ _ _ _ E2) as (Hc2 & _ & _ & Hg2 & _ & _).
  cbn in Hc1, Hg1.
  assert (Hc : client s2 = true) by congruence.
  assert (Hev : events (history s2) = []).
  { rewrite (grows_events [] (history s2)); [done|]. eapply grows_trans.
    - eapply grows_weaken; [|exact Hg1]. by intros [[]| | |].
    - eapply grows_weaken; [|exact Hg2]. by intros [[]| | |]. }
  unfold bind at 1. rewrite E2.
  unfold bind at 1. unfold get_cl_services, bind, get. rewrite Hl. unfold ret at 1.
  assert (Hfor : forall l s, for_each (startup_restart w) (l1 ++ l)%list s =
            match for_each (startup_restart w) l1 s with
            | (Ok _, s') => for_each (startup_restart w) l s'
            | (Raise e', s') => (Raise e', s')
            end).
  { clear. induction l1 as [|y l1 IH]; intros l s; [done|].
    cbn [for_each app]. unfold bind.
    destruct (startup_restart w y s) as [[[]|?] ?]; [apply IH|done]. }
  rewrite Hfor, (for_each_restart_in w l1 s2 Hc Hok).
  cbn [for_each]. unfold bind at 1. unfold startup_restart at 1. rewrite Hm, Hen. cbn.
  unfold call, bind, get, emit, modify, lift, ret, raise. destruct s2; cbn in *.
  rewrite Hc, Hfail. cbn. eexists. split; [done|]. cbn. split; [done|].
  assert (Hres : forall l l', events (rev (restarted l) ++ l') = events l').
  { intros l l'. unfold restarted.
    induction (List.filter _ l) as [|y ys IH] using rev_ind; [done|].
    rewrite map_app, rev_app_distr. cbn. exact IH. }
  by rewrite Hres.
Qed.

Lemma startup_stops_at_failed_restart_witness :
  let w := restart_fails_world in
  exists s',
    startup w (__init__ w) = (Raise (Exn CallError "timed out"), s') /\
    history s' = [Called (service_restart "svcB"); Called (service_restart "svcA")].
Proof.
  intros w.
  destruct (startup_stops_at_failed_restart w _ _ _ [svcA] svcB [Srv "svcC" true true]
              (Exn CallError "timed out")
              (example_world_ready _ _ _ _ _ _) eq_refl eq_refl eq_refl eq_refl
              eq_refl eq_refl eq_refl)
    as (s' & Hs & Hh & _).
  - intros h y Hy. exists RNone.
    apply elem_of_cons in Hy as [->|Hy]; [reflexivity|].
    exfalso. by apply elem_of_nil in Hy.
  - reflexivity.
  - exists s'. split; [exact Hs|exact Hh].
Defined.

Lemma init_client_true_ready w s0 :
  init_client w (__init__ w) = (Ok true, s0) -> ready w.
Proof.
  intros E0. unfold init_client in E0. unfold_monad. cbn in E0. unfold ready.
  destruct (sentinel_exists w); cbn in E0; [|done].
  by destruct (Client w).
Qed.

(** X18.  Whatever the world and however it ends, [startup] does nothing to
    the outside but ask for the description of the volume, restart
    services, report a status and log: it never queries, starts, stops or
    updates a service and never writes the per-node file. *)
Theorem startup_only_restarts w :
  Forall (fun e => startup_effect e = true) (history (startup w (__init__ w)).2).
Proof.
  destruct (init_client w (__init__ w)) as [[[]|e0] s0] eqn:E0.
  - pose proof (init_client_true_ready _ _ E0) as Hr.
    rewrite (startup_unfold w Hr).
    destruct (check_ctdb_shared_volume w (connected w)) as [[[]|e] s1] eqn:E1;
      pose proof (check_spec _ _ _ _ E1) as (Hc1 & _ & _ & _ & _ & Hg1 & _);
      cbn in Hc1, Hg1;
      apply (grows_weaken _ startup_effect) in Hg1; try (by intros [[]| | |]).
    + destruct (negb _); [by eapply grows_Forall; [exact Hg1|constructor]|].
      unfold bind at 1.
      destruct (load_service_file w s1) as [[[]|e] s2] eqn:E2;
        pose proof (load_spec _ _ _ _ E2) as (Hc2 & _ & _ & Hg2 & _ & _);
        apply (grows_weaken _ startup_effect) in Hg2; try (by intros [[]| | |]).
      2:{ eapply grows_Forall; [|constructor]. by eapply grows_trans. }
      unfold bind at 1. unfold get_cl_services, bind, get.
      destruct (cl_services s2) as [l|]; unfold ret at 1, raise.
      2:{ eapply grows_Forall; [|constructor]. by eapply grows_trans. }
      destruct (for_each_restart_effects w l s2) as [Hg3 Hc3].
      destruct (for_each (startup_restart w) l s2) as [[[]|e] s3]; cbn in Hg3, Hc3.
      2:{ eapply grows_Forall; [|constructor]. eauto using grows_trans. }
      assert (Hg : grows startup_effect [] (history s3)) by eauto using grows_trans.
      unfold call, bind, get, emit, modify, lift, ret, raise. destruct s3; cbn in *.
      destruct client0; cbn; [|by eapply grows_Forall; [exact Hg|constructor]].
      destruct (client_call w _ _); cbn;
        (constructor; [done|by eapply grows_Forall; [exact Hg|constructor]]).
    + unfold call, bind, get, emit, modify, lift, ret, raise. destruct s1; cbn in *.
      destruct client0; cbn; [|by eapply grows_Forall; [exact Hg1|constructor]].
      destruct (client_call w _ _); cbn;
        (constructor; [done|by eapply grows_Forall; [exact Hg1|constructor]]).
  - unfold startup, bind. rewrite E0. cbn.
    apply init_client_false in E0 as (_ & _ & Hl).
    eapply Forall_impl; [exact Hl|]. by intros [[]| | |].
  - by apply init_client_no_raise in E0.
Qed.

(** X19.  When the client cannot be set up (the middleware has not started,
    or [Client()] raises), [init] and [startup] return without an error and
    without a call: the volume is not checked, nothing is restarted or
    reported, and the object is as [init_client] left it. *)
Theorem hooks_skip_without_client w :
  sentinel_exists w = false \/ Client w <> None ->
  let s0 := (init_client w (__init__ w)).2 in
  init w (__init__ w) = (Ok tt, s0) /\
  startup w (__init__ w) = (Ok tt, s0) /\
  client s0 = false /\ node_status s0 = ∅ /\ ctdb_service_file s0 = None /\
  Forall (fun e => is_log e = true) (history s0).
Proof.
  intros Hn. cbv zeta. unfold init, startup, init_client. unfold_monad. cbn.
  destruct (sentinel_exists w) eqn:Es; cbn.
  - destruct (Client w) eqn:Ec; [|by destruct Hn]. cbn.
    repeat split; by repeat constructor.
  - repeat split; by repeat constructor.
Qed.

Lemma hooks_skip_without_client_witness :
  init not_started_world (__init__ not_started_world) =
    (Ok tt, __init__ not_started_world) /\
  startup not_started_world (__init__ not_started_world) =
    (Ok tt, __init__ not_started_world).
Proof.
  destruct (hooks_skip_without_client not_started_world (or_introl eq_refl))
    as (Hi & Hs & _).
  split; [exact Hi|exact Hs].
Defined.
